(** * Inclusive-Reading-Aid: the DyslexiaFont page

    A shallow embedding of [src/frontend/src/pages/DyslexiaFont.js]: the
    document importer ([handleFileUpload], [readPDF], [readDOCX],
    [readImage]), the read-aloud controller ([playTTS], [stopTTS]) and the
    effect that loads the persisted preferences.

    Conventions of the model.
    - A JavaScript string is a [string] holding its UTF-8 encoding.
      [toLowerCase] folds the letters A-Z only; the real one also folds
      letters outside ASCII, none of them to a character of the suffixes
      the importer tests, so the classification of a file name is the same.
    - A JavaScript number is a [number]: an exact rational, or one of the
      three special values.  The sign of zero is not modelled.
    - A promise is modelled by its settlement, a [result]; [await] of a
      rejected promise throws inside the async function.
    - A handler is modelled by its effect on the [World] when it runs to
      completion with no other event in between.  An async function called
      without [await] runs at its call site; its rejection is recorded in
      the trace and is not propagated to the caller ([detach]).  The
      statement that follows such a call in the source runs first in the
      browser; [reset_commutes_with_readers] shows the order is immaterial.
    - Presentation-only state (the two colour-picker toggles) is left
      out.  The load effect is first studied as a function of the stored
      text; the save effect and the order of the two effects at mount
      come with [mount_effects]. *)

From Stdlib Require Import String Ascii List Bool Arith NArith ZArith QArith Lia.
From Equations Require Import Equations.
Import ListNotations.

Set Warnings "-register-all".

Local Close Scope Q_scope.
Local Open Scope nat_scope.
Local Open Scope string_scope.
Local Open Scope list_scope.

(* ================================================================== *)
(** * JavaScript strings, numbers and values *)
(* ================================================================== *)

Module JS.

(** A-Z to a-z, every other character unchanged. *)
Definition lower_ascii (c : ascii) : ascii :=
  let n := nat_of_ascii c in
  if ((65 <=? n) && (n <=? 90))%nat then ascii_of_nat (n + 32) else c.

(** [String.prototype.toLowerCase]. *)
Fixpoint toLowerCase (s : string) : string :=
  match s with
  | EmptyString => EmptyString
  | String c r => String (lower_ascii c) (toLowerCase r)
  end.

(** [String.prototype.endsWith]: the last [length x] characters of [s]
    are [x]. *)
Definition endsWith (s x : string) : bool :=
  (String.length x <=? String.length s)%nat &&
  (substring (String.length s - String.length x) (String.length x) s =? x).

(** [Array.prototype.join] on an array of strings. *)
Definition join (sep : string) (l : list string) : string :=
  String.concat sep l.

(** The line feed ["\n"]. *)
Definition LF : string := String (ascii_of_nat 10) EmptyString.

Inductive number :=
| NaN
| Infinity
| NegInfinity
| Finite (q : Q).

Inductive value :=
| Undefined
| Null
| Bool (b : bool)
| Num (n : number)
| Str (s : string)
| Arr (l : list value)
| Obj (members : list (string * value)).

(** [ToBoolean]: the test made by [if (v)]. *)
Definition ToBoolean (v : value) : bool :=
  match v with
  | Undefined | Null => false
  | Bool b => b
  | Num NaN => false
  | Num (Finite q) => negb (Qeq_bool q 0)
  | Num _ => true
  | Str s => negb (s =? "")
  | Arr _ | Obj _ => true
  end.

Inductive error :=
| TypeError
| SyntaxError
| Failure (reason : string).

Inductive result (A : Type) :=
| Ok (a : A)
| Throw (e : error).
Arguments Ok {A} a.
Arguments Throw {A} e.

(** The last binding of [k] in the members of an object, in source order:
    a later duplicate key overwrites an earlier one. *)
Fixpoint member (k : string) (ms : list (string * value)) : option value :=
  match ms with
  | [] => None
  | (k', v) :: r =>
      match member k r with
      | Some v' => Some v'
      | None => if k' =? k then Some v else None
      end
  end.

(** Property read [v.k] for a name [k] that no built-in prototype
    defines, which holds of the six names read by the load effect
    ([String.prototype] has [fontsize] and [fontcolor], in lower case).
    Reading a property of [null] or [undefined] throws a [TypeError]. *)
Definition Get (v : value) (k : string) : result value :=
  match v with
  | Undefined | Null => Throw TypeError
  | Obj ms => Ok (match member k ms with Some x => x | None => Undefined end)
  | _ => Ok Undefined
  end.

End JS.
Import JS.

(* ================================================================== *)
(** * A reference [JSON.parse] *)
(* ================================================================== *)

(** The page does not define [JSON.parse]; the theorems below hold for
    any parser given as [JSON_parse].  This one follows the JSON grammar
    (ECMA-404) and is what the concrete examples run.  Strings are kept
    in UTF-8: a [\uXXXX] escape yields the UTF-8 bytes of its code point,
    a surrogate pair of escapes those of the character it encodes.
    Numbers are read exactly, without the rounding of a double. *)
Module JSON.

Local Open Scope char_scope.

Definition DQUOTE : ascii := ascii_of_nat 34.
Definition BACKSLASH : ascii := ascii_of_nat 92.

Definition is_ws (c : ascii) : bool :=
  (c =? " ") || (c =? ascii_of_nat 9) || (c =? ascii_of_nat 10)
  || (c =? ascii_of_nat 13).

Fixpoint skip_ws (s : string) : string :=
  match s with
  | String c r => if is_ws c then skip_ws r else s
  | EmptyString => s
  end.

Definition digit (c : ascii) : option N :=
  let n := N_of_ascii c in
  if ((48 <=? n) && (n <=? 57))%N then Some (n - 48)%N else None.

Definition hex (c : ascii) : option N :=
  let n := N_of_ascii c in
  if ((48 <=? n) && (n <=? 57))%N then Some (n - 48)%N
  else if ((65 <=? n) && (n <=? 70))%N then Some (n - 55)%N
  else if ((97 <=? n) && (n <=? 102))%N then Some (n - 87)%N
  else None.

(** The longest run of digits at the head of [s]: its value after [acc],
    how many digits it has, and what follows. *)
Fixpoint digits (acc : N) (cnt : nat) (s : string) : N * nat * string :=
  match s with
  | String c r =>
      match digit c with
      | Some d => digits (10 * acc + d)%N (S cnt) r
      | None => (acc, cnt, s)
      end
  | EmptyString => (acc, cnt, s)
  end.

(** [int]: a lone [0], or a run of digits that does not start with [0]. *)
Definition parse_int (s : string) : option (N * string) :=
  match s with
  | String c r =>
      if c =? "0" then Some (0%N, r)
      else match digits 0 0 s with
           | (_, O, _) => None
           | (n, _, r') => Some (n, r')
           end
  | EmptyString => None
  end.

(** [frac]: nothing, or a dot and at least one digit.  Returns the
    mantissa extended by the digits and their count. *)
Definition parse_frac (m : N) (s : string) : option (N * nat * string) :=
  match s with
  | String c r =>
      if c =? "." then
        match digits m 0 r with
        | (_, O, _) => None
        | x => Some x
        end
      else Some (m, O, s)
  | EmptyString => Some (m, O, s)
  end.

(** [exp]: nothing, or [e]/[E], an optional sign and at least one digit. *)
Definition parse_exp (s : string) : option (Z * string) :=
  match s with
  | String c r =>
      if (c =? "e") || (c =? "E") then
        let '(neg, r1) :=
          match r with
          | String d r' =>
              if d =? "-" then (true, r')
              else if d =? "+" then (false, r') else (false, r)
          | EmptyString => (false, r)
          end in
        match digits 0 0 r1 with
        | (_, O, _) => None
        | (n, _, r2) => Some (if neg then (- Z.of_N n)%Z else Z.of_N n, r2)
        end
      else Some (0%Z, s)
  | EmptyString => Some (0%Z, s)
  end.

(** [m * 10 ^ e] as a rational. *)
Definition scale (m e : Z) : Q :=
  if (0 <=? e)%Z then Qmake (m * 10 ^ e) 1
  else Qmake m (Z.to_pos (10 ^ (- e))).

Definition parse_number (s : string) : option (Q * string) :=
  let '(neg, s1) :=
    match s with
    | String c r => if c =? "-" then (true, r) else (false, s)
    | EmptyString => (false, s)
    end in
  match parse_int s1 with
  | None => None
  | Some (i, s2) =>
      match parse_frac i s2 with
      | None => None
      | Some (m, cnt, s3) =>
          match parse_exp s3 with
          | None => None
          | Some (e, s4) =>
              let m' := if neg then (- Z.of_N m)%Z else Z.of_N m in
              Some (scale m' (e - Z.of_nat cnt), s4)
          end
      end
  end.

(** The UTF-8 encoding of a code point (of a lone surrogate too). *)
Definition utf8 (n : N) : string :=
  let b (k : N) := ascii_of_N k in
  (if n <? 128 then String (b n) EmptyString
   else if n <? 2048 then
     String (b (192 + n / 64)) (String (b (128 + n mod 64)) EmptyString)
   else if n <? 65536 then
     String (b (224 + n / 4096))
       (String (b (128 + (n / 64) mod 64))
          (String (b (128 + n mod 64)) EmptyString))
   else
     String (b (240 + n / 262144))
       (String (b (128 + (n / 4096) mod 64))
          (String (b (128 + (n / 64) mod 64))
             (String (b (128 + n mod 64)) EmptyString))))%N.

(** What a string literal is made of: a character taken as it is, or the
    code unit of a [\u] escape. *)
Inductive piece :=
| Raw (c : ascii)
| Unit16 (n : N).

(** The characters of a string literal after its opening quote, up to
    and including the closing quote. *)
Fixpoint parse_chars (s : string) : option (list piece * string) :=
  match s with
  | EmptyString => None
  | String c r =>
      if c =? DQUOTE then Some ([], r)
      else if c =? BACKSLASH then
        match r with
        | String e r1 =>
            let simple (x : ascii) :=
              match parse_chars r1 with
              | Some (ps, r') => Some (Raw x :: ps, r')
              | None => None
              end in
            if e =? DQUOTE then simple DQUOTE
            else if e =? BACKSLASH then simple BACKSLASH
            else if e =? "/" then simple "/"
            else if e =? "b" then simple (ascii_of_nat 8)
            else if e =? "f" then simple (ascii_of_nat 12)
            else if e =? "n" then simple (ascii_of_nat 10)
            else if e =? "r" then simple (ascii_of_nat 13)
            else if e =? "t" then simple (ascii_of_nat 9)
            else if e =? "u" then
              match r1 with
              | String h1 (String h2 (String h3 (String h4 r2))) =>
                  match hex h1, hex h2, hex h3, hex h4, parse_chars r2 with
                  | Some a, Some b, Some c', Some d, Some (ps, r') =>
                      Some (Unit16 (((a * 16 + b) * 16 + c') * 16 + d)%N :: ps, r')
                  | _, _, _, _, _ => None
                  end
              | _ => None
              end
            else None
        | EmptyString => None
        end
      else if (N_of_ascii c <? 32)%N then None
      else
        match parse_chars r with
        | Some (ps, r') => Some (Raw c :: ps, r')
        | None => None
        end
  end.

Definition is_high (n : N) : bool := ((55296 <=? n) && (n <=? 56319))%N.
Definition is_low (n : N) : bool := ((56320 <=? n) && (n <=? 57343))%N.

(** The string the pieces stand for; a high surrogate followed by a low
    one is one character. *)
Fixpoint assemble (ps : list piece) : string :=
  match ps with
  | [] => EmptyString
  | Raw c :: r => String c (assemble r)
  | Unit16 h :: r =>
      match r with
      | Unit16 l :: r' =>
          if is_high h && is_low l then
            (utf8 (65536 + (h - 55296) * 1024 + (l - 56320))%N
               ++ assemble r')%string
          else (utf8 h ++ assemble r)%string
      | _ => (utf8 h ++ assemble r)%string
      end
  end.

Definition parse_string (s : string) : option (string * string) :=
  match parse_chars s with
  | Some (ps, r) => Some (assemble ps, r)
  | None => None
  end.

(** [s] without its prefix [p]. *)
Fixpoint strip (p s : string) : option string :=
  match p, s with
  | EmptyString, _ => Some s
  | String a p', String b s' => if a =? b then strip p' s' else None
  | _, _ => None
  end.

(** A value after optional white space; [fuel] bounds the number of
    nested calls. *)
Fixpoint parse_value (fuel : nat) (s : string) : option (value * string) :=
  match fuel with
  | O => None
  | S fuel' =>
      match skip_ws s with
      | EmptyString => None
      | String c r =>
          if c =? "{" then
            match skip_ws r with
            | String c' r' =>
                if c' =? "}" then Some (Obj [], r')
                else match parse_members fuel' r with
                     | Some (ms, r'') => Some (Obj ms, r'')
                     | None => None
                     end
            | EmptyString => None
            end
          else if c =? "[" then
            match skip_ws r with
            | String c' r' =>
                if c' =? "]" then Some (Arr [], r')
                else match parse_elements fuel' r with
                     | Some (vs, r'') => Some (Arr vs, r'')
                     | None => None
                     end
            | EmptyString => None
            end
          else if c =? DQUOTE then
            match parse_string r with
            | Some (x, r') => Some (Str x, r')
            | None => None
            end
          else if c =? "t" then
            match strip "rue" r with Some r' => Some (Bool true, r') | None => None end
          else if c =? "f" then
            match strip "alse" r with Some r' => Some (Bool false, r') | None => None end
          else if c =? "n" then
            match strip "ull" r with Some r' => Some (Null, r') | None => None end
          else
            match parse_number (String c r) with
            | Some (q, r') => Some (Num (Finite q), r')
            | None => None
            end
      end
  end

(** The elements of an array after its opening bracket, up to and
    including the closing one. *)
with parse_elements (fuel : nat) (s : string) : option (list value * string) :=
  match fuel with
  | O => None
  | S fuel' =>
      match parse_value fuel' s with
      | None => None
      | Some (v, r) =>
          match skip_ws r with
          | String c r' =>
              if c =? "," then
                match parse_elements fuel' r' with
                | Some (vs, r'') => Some (v :: vs, r'')
                | None => None
                end
              else if c =? "]" then Some ([v], r')
              else None
          | EmptyString => None
          end
      end
  end

(** The members of an object after its opening brace, up to and
    including the closing one. *)
with parse_members (fuel : nat) (s : string)
  : option (list (string * value) * string) :=
  match fuel with
  | O => None
  | S fuel' =>
      match skip_ws s with
      | String q r =>
          if q =? DQUOTE then
            match parse_string r with
            | None => None
            | Some (k, r1) =>
                match skip_ws r1 with
                | String c r2 =>
                    if c =? ":" then
                      match parse_value fuel' r2 with
                      | None => None
                      | Some (v, r3) =>
                          match skip_ws r3 with
                          | String c' r4 =>
                              if c' =? "," then
                                match parse_members fuel' r4 with
                                | Some (ms, r5) => Some ((k, v) :: ms, r5)
                                | None => None
                                end
                              else if c' =? "}" then Some ([(k, v)], r4)
                              else None
                          | EmptyString => None
                          end
                      end
                    else None
                | EmptyString => None
                end
            end
          else None
      | EmptyString => None
      end
  end.

(** [JSON.parse]: one value, white space around it, nothing else. *)
Definition parse (s : string) : result value :=
  match parse_value (2 * String.length s + 2) s with
  | Some (v, r) =>
      match skip_ws r with
      | EmptyString => Ok v
      | _ => Throw SyntaxError
      end
  | None => Throw SyntaxError
  end.

(** [s] between double quotes, to write a blob down. *)
Definition quoted (s : string) : string :=
  (String DQUOTE s ++ String DQUOTE EmptyString)%string.

End JSON.

(* ================================================================== *)
(** * The host: files, libraries, browser state *)
(* ================================================================== *)

Definition ArrayBuffer := list Byte.byte.

(** A [File] picked in the file input: its name and the settlement of the
    two promises the importer asks of it. *)
Module File.
Record t := {
  name : string;
  text : result string;
  arrayBuffer : result ArrayBuffer
}.
End File.

(** What pdf.js hands out: a document, its pages, the text content of a
    page and its items. *)
Record TextItem := { str : string }.
Record TextContent := { items : list TextItem }.
Record PDFPageProxy := { getTextContent : result TextContent }.
Record PDFDocumentProxy := {
  numPages : nat;
  getPage : nat -> result PDFPageProxy
}.

(** The globals and libraries the page calls and does not define; the
    development is parametric in them.
    - [JSON_parse]: [JSON.parse]; a [SyntaxError] on malformed text;
    - [pdfjsLib_getDocument b]: [pdfjsLib.getDocument({data: b}).promise];
    - [mammoth_extractRawText b]: the [value] of
      [mammoth.extractRawText({arrayBuffer: b})];
    - [Tesseract_recognize f lang]: the [data.text] of
      [Tesseract.recognize(f, lang)]. *)
Record Host := {
  JSON_parse : string -> result value;
  pdfjsLib_getDocument : ArrayBuffer -> result PDFDocumentProxy;
  mammoth_extractRawText : ArrayBuffer -> result string;
  Tesseract_recognize : File.t -> string -> result string
}.

(** The React state of the component ([useState], lines 19-34).  The
    setters store what they are given, so a field restored from the
    persisted blob holds any JSON value. *)
Record State := {
  text : string;
  font : value;
  fontSize : value;
  lineHeight : value;
  letterSpacing : value;
  bgColor : value;
  textColor : value;
  rate : number;
  isReading : bool
}.

(** [new SpeechSynthesisUtterance(text)] with its [rate]; [onend] is the
    same closure for every utterance, see [onend] below. *)
Record SpeechSynthesisUtterance := {
  utterance_text : string;
  utterance_rate : number
}.

(** What the user or the browser can observe, in order. *)
Inductive event :=
| Alert (msg : string)
| SpeechCancel
| SpeechSpeak (u : SpeechSynthesisUtterance)
| PdfGetPage (i : nat)
| UnhandledRejection (e : error).

(** The component and the part of the browser it touches.
    [speechSynthesis] is [None] when [window] has no such property, and
    otherwise the queue of utterances, the one being spoken first. *)
Record World := {
  state : State;
  speechSynthesis : option (list SpeechSynthesisUtterance);
  localStorage : string -> option string;
  fileInput_value : string;
  trace : list event
}.

Definition with_state (f : State -> State) (w : World) : World :=
  {| state := f (state w);
     speechSynthesis := speechSynthesis w;
     localStorage := localStorage w;
     fileInput_value := fileInput_value w;
     trace := trace w |}.

Definition with_queue (q : list SpeechSynthesisUtterance) (w : World) : World :=
  {| state := state w;
     speechSynthesis := Some q;
     localStorage := localStorage w;
     fileInput_value := fileInput_value w;
     trace := trace w |}.

Definition with_fileInput_value (v : string) (w : World) : World :=
  {| state := state w;
     speechSynthesis := speechSynthesis w;
     localStorage := localStorage w;
     fileInput_value := v;
     trace := trace w |}.

Definition with_event (e : event) (w : World) : World :=
  {| state := state w;
     speechSynthesis := speechSynthesis w;
     localStorage := localStorage w;
     fileInput_value := fileInput_value w;
     trace := trace w ++ [e] |}.

(* ================================================================== *)
(** * A state and exception monad for handlers *)
(* ================================================================== *)

Definition M (A : Type) : Type := World -> result A * World.

Definition ret {A} (a : A) : M A := fun w => (Ok a, w).

Definition bind {A B} (m : M A) (k : A -> M B) : M B :=
  fun w =>
    match m w with
    | (Ok a, w') => k a w'
    | (Throw e, w') => (Throw e, w')
    end.

Declare Scope js_scope.
Delimit Scope js_scope with js.
Notation "x <- m ;; k" := (bind m (fun x => k))
  (at level 100, m at next level, right associativity) : js_scope.
Notation "m ;; k" := (bind m (fun _ => k))
  (at level 100, right associativity) : js_scope.
Local Open Scope js_scope.

(** [await p]: the value of a fulfilled promise, a throw for a rejected
    one. *)
Definition await {A} (p : result A) : M A := fun w => (p, w).

(** [try { m } catch {}]. *)
Definition try_catch (m : M unit) : M unit :=
  fun w =>
    match m w with
    | (Throw _, w') => (Ok tt, w')
    | r => r
    end.

(** A call [f(x);] of an async function whose promise is dropped: the
    caller goes on whatever happens, and a rejection reaches nobody but
    the browser's [unhandledrejection] event. *)
Definition detach (m : M unit) : M unit :=
  fun w =>
    match m w with
    | (Throw e, w') => (Ok tt, with_event (UnhandledRejection e) w')
    | r => r
    end.

Definition modify (f : World -> World) : M unit := fun w => (Ok tt, f w).
Definition get_state : M State := fun w => (Ok (state w), w).

Definition alert (msg : string) : M unit := modify (with_event (Alert msg)).

(* ================================================================== *)
(** * The component *)
(* ================================================================== *)

(** The [useState] setters. *)
Definition setText (v : string) : M unit :=
  modify (with_state (fun s =>
    {| text := v; font := font s; fontSize := fontSize s;
       lineHeight := lineHeight s; letterSpacing := letterSpacing s;
       bgColor := bgColor s; textColor := textColor s;
       rate := rate s; isReading := isReading s |})).

Definition setFont (v : value) : M unit :=
  modify (with_state (fun s =>
    {| text := text s; font := v; fontSize := fontSize s;
       lineHeight := lineHeight s; letterSpacing := letterSpacing s;
       bgColor := bgColor s; textColor := textColor s;
       rate := rate s; isReading := isReading s |})).

Definition setFontSize (v : value) : M unit :=
  modify (with_state (fun s =>
    {| text := text s; font := font s; fontSize := v;
       lineHeight := lineHeight s; letterSpacing := letterSpacing s;
       bgColor := bgColor s; textColor := textColor s;
       rate := rate s; isReading := isReading s |})).

Definition setLineHeight (v : value) : M unit :=
  modify (with_state (fun s =>
    {| text := text s; font := font s; fontSize := fontSize s;
       lineHeight := v; letterSpacing := letterSpacing s;
       bgColor := bgColor s; textColor := textColor s;
       rate := rate s; isReading := isReading s |})).

Definition setLetterSpacing (v : value) : M unit :=
  modify (with_state (fun s =>
    {| text := text s; font := font s; fontSize := fontSize s;
       lineHeight := lineHeight s; letterSpacing := v;
       bgColor := bgColor s; textColor := textColor s;
       rate := rate s; isReading := isReading s |})).

Definition setBgColor (v : value) : M unit :=
  modify (with_state (fun s =>
    {| text := text s; font := font s; fontSize := fontSize s;
       lineHeight := lineHeight s; letterSpacing := letterSpacing s;
       bgColor := v; textColor := textColor s;
       rate := rate s; isReading := isReading s |})).

Definition setTextColor (v : value) : M unit :=
  modify (with_state (fun s =>
    {| text := text s; font := font s; fontSize := fontSize s;
       lineHeight := lineHeight s; letterSpacing := letterSpacing s;
       bgColor := bgColor s; textColor := v;
       rate := rate s; isReading := isReading s |})).

Definition setRate (v : number) : M unit :=
  modify (with_state (fun s =>
    {| text := text s; font := font s; fontSize := fontSize s;
       lineHeight := lineHeight s; letterSpacing := letterSpacing s;
       bgColor := bgColor s; textColor := textColor s;
       rate := v; isReading := isReading s |})).

Definition setIsReading (v : bool) : M unit :=
  modify (with_state (fun s =>
    {| text := text s; font := font s; fontSize := fontSize s;
       lineHeight := lineHeight s; letterSpacing := letterSpacing s;
       bgColor := bgColor s; textColor := textColor s;
       rate := rate s; isReading := v |})).

(** The initial values given to [useState] (lines 19-34). *)
Definition initial_state : State :=
  {| text := "Type or paste text here...";
     font := Str "normal";
     fontSize := Num (Finite (20 # 1));
     lineHeight := Num (Finite (16 # 10));
     letterSpacing := Num (Finite (0 # 1));
     bgColor := Str "#fffef0";
     textColor := Str "#222222";
     rate := Finite (1 # 1);
     isReading := false |}.

(** ** Read aloud (lines 36-53) *)

(** [window.speechSynthesis.cancel()]: empties the queue; a [TypeError]
    when [window.speechSynthesis] is [undefined]. *)
Definition speechSynthesis_cancel : M unit :=
  fun w =>
    match speechSynthesis w with
    | None => (Throw TypeError, w)
    | Some _ => (Ok tt, with_event SpeechCancel (with_queue [] w))
    end.

(** [window.speechSynthesis.speak(u)]: adds [u] at the end of the queue. *)
Definition speechSynthesis_speak (u : SpeechSynthesisUtterance) : M unit :=
  fun w =>
    match speechSynthesis w with
    | None => (Throw TypeError, w)
    | Some q => (Ok tt, with_event (SpeechSpeak u) (with_queue (q ++ [u]) w))
    end.

(** ["speechSynthesis" in window]. *)
Definition speechSynthesis_in_window : M bool :=
  fun w =>
    (Ok (match speechSynthesis w with Some _ => true | None => false end), w).

Definition playTTS : M unit :=
  s <- get_state ;;
  supported <- speechSynthesis_in_window ;;
  if negb supported then
    alert "Browser does not support TTS"
  else
    speechSynthesis_cancel ;;
    let utter := {| utterance_text := text s; utterance_rate := rate s |} in
    setIsReading true ;;
    speechSynthesis_speak utter.

Definition stopTTS : M unit :=
  speechSynthesis_cancel ;;
  setIsReading false.

(** [utter.onend] (line 44). *)
Definition onend : M unit := setIsReading false.

(** The browser finishes speaking the utterance at the head of the
    queue: it leaves the queue and its [onend] runs. *)
Definition utterance_ends : M unit :=
  fun w =>
    match speechSynthesis w with
    | Some (_ :: q) => onend (with_queue q w)
    | _ => (Ok tt, w)
    end.

(** ** Load preferences (lines 70-81) *)

Definition getItem (k : string) : M (option string) :=
  fun w => (Ok (localStorage w k), w).

(** [stored || "{}"]: [null] and the empty string are falsy. *)
Definition or_empty_object (stored : option string) : string :=
  match stored with
  | Some s => if s =? "" then "{}" else s
  | None => "{}"
  end.

(** One line [if (s.k) setK(s.k);]. *)
Definition restore (s : value) (k : string) (setK : value -> M unit) : M unit :=
  c <- await (Get s k) ;;
  if ToBoolean c then (v <- await (Get s k) ;; setK v) else ret tt.

(** ** File upload (lines 84-136) *)

(** The [for] loop of [readPDF] from [i] on, [fullText] being what the
    earlier iterations have accumulated. *)
Equations? readPDF_pages (pdf : PDFDocumentProxy) (i : nat) (fullText : string)
  (w : World) : result string * World by wf (S (numPages pdf) - i) lt :=
  readPDF_pages pdf i fullText w with le_lt_dec i (numPages pdf) := {
    | left _ =>
        (modify (with_event (PdfGetPage i)) ;;
         page <- await (getPage pdf i) ;;
         content <- await (getTextContent page) ;;
         fun w' =>
           readPDF_pages pdf (S i)
             (fullText ++ (join " " (map str (items content)) ++ LF)) w') w
    | right _ => ret fullText w }.
Proof. destruct i; lia. Qed.

Section Component.

Context (host : Host).

Definition load_preferences : M unit :=
  try_catch (
    stored <- getItem "dyslexia_ui_settings" ;;
    s <- await (JSON_parse host (or_empty_object stored)) ;;
    restore s "font" setFont ;;
    restore s "fontSize" setFontSize ;;
    restore s "lineHeight" setLineHeight ;;
    restore s "letterSpacing" setLetterSpacing ;;
    restore s "bgColor" setBgColor ;;
    restore s "textColor" setTextColor).

Definition readPDF (file : File.t) : M unit :=
  buffer <- await (File.arrayBuffer file) ;;
  pdf <- await (pdfjsLib_getDocument host buffer) ;;
  fullText <- readPDF_pages pdf 1 "" ;;
  setText fullText.

Definition readDOCX (file : File.t) : M unit :=
  arrayBuffer <- await (File.arrayBuffer file) ;;
  result_value <- await (mammoth_extractRawText host arrayBuffer) ;;
  setText result_value.

Definition readImage (file : File.t) : M unit :=
  data_text <- await (Tesseract_recognize host file "eng") ;;
  setText data_text.

(** [files] is [e.target.files], [None] when it is [null]. *)
Definition handleFileUpload (files : option (list File.t)) : M unit :=
  match files with
  | Some (file :: _) =>
      let ext := toLowerCase (File.name file) in
      (if endsWith ext ".txt" then
         txt <- await (File.text file) ;;
         setText txt
       else if endsWith ext ".pdf" then
         detach (readPDF file)
       else if endsWith ext ".docx" then
         detach (readDOCX file)
       else if existsb (fun x => endsWith ext x) [".png"; ".jpg"; ".jpeg"; ".bmp"] then
         detach (readImage file)
       else
         alert "Unsupported file type") ;;
      modify (with_fileInput_value "")
  | _ => ret tt
  end.

End Component.

(* ================================================================== *)
(** * The page as a transition system *)
(* ================================================================== *)

(** What can happen to the mounted page: the controls of the left panel,
    the editor, the three buttons that change state, the end of an
    utterance, and the load effect.  Copy and download read the text and
    change nothing that is modelled.  An utterance that ends with an
    error event, for which the page sets no handler, is not among them. *)
Inductive action :=
| FontSelect (v : string)
| FontSizeSlider (v : Q)
| LineHeightSlider (v : Q)
| LetterSpacingSlider (v : Q)
| RateSlider (v : Q)
| BgColorPick (c : string)
| TextColorPick (c : string)
| Edit (v : string)
| Clear
| Upload (files : option (list File.t))
| Play
| Stop
| UtteranceEnds
| LoadPreferences.

Definition handle (host : Host) (a : action) : M unit :=
  match a with
  | FontSelect v => setFont (Str v)
  | FontSizeSlider v => setFontSize (Num (Finite v))
  | LineHeightSlider v => setLineHeight (Num (Finite v))
  | LetterSpacingSlider v => setLetterSpacing (Num (Finite v))
  | RateSlider v => setRate (Finite v)
  | BgColorPick c => setBgColor (Str c)
  | TextColorPick c => setTextColor (Str c)
  | Edit v => setText v
  | Clear => setText ""
  | Upload files => handleFileUpload host files
  | Play => playTTS
  | Stop => stopTTS
  | UtteranceEnds => utterance_ends
  | LoadPreferences => load_preferences host
  end.

Definition between (lo hi q : Q) : Prop := (lo <= q)%Q /\ (q <= hi)%Q.

(** What the browser delivers: the value of a range input lies between
    its [min] and [max] attributes (lines 180-208 and 253-258). *)
Definition delivered (a : action) : Prop :=
  match a with
  | FontSizeSlider v => between (14 # 1) (48 # 1) v
  | LineHeightSlider v => between (1 # 1) (24 # 10) v
  | LetterSpacingSlider v => between (0 # 1) (4 # 1) v
  | RateSlider v => between (5 # 10) (2 # 1) v
  | _ => True
  end.

(** The worlds the page can be in: it starts from the [useState] values,
    in any browser, and moves by the actions above. *)
Inductive reachable (host : Host) : World -> Prop :=
| reachable_mount : forall w,
    state w = initial_state -> reachable host w
| reachable_step : forall w a,
    reachable host w -> delivered a ->
    reachable host (snd (handle host a w)).

(* ================================================================== *)
(** * The specification's words, for comparison *)
(* ================================================================== *)

(** ** Section 3: the intervals of the numeric settings *)

Definition number_between (lo hi : Q) (n : number) : Prop :=
  match n with
  | Finite q => between lo hi q
  | _ => False
  end.

Definition value_between (lo hi : Q) (v : value) : Prop :=
  match v with
  | Num n => number_between lo hi n
  | _ => False
  end.

Definition in_bounds (s : State) : Prop :=
  value_between (14 # 1) (48 # 1) (fontSize s) /\
  value_between (1 # 1) (24 # 10) (lineHeight s) /\
  value_between (0 # 1) (4 # 1) (letterSpacing s) /\
  number_between (5 # 10) (2 # 1) (rate s).

(** ** Section 4.1: classification by suffix *)

Inductive Kind := PlainText | Pdf | Docx | Image | Unsupported.

(** The precedence table, first row first. *)
Definition precedence : list (string * Kind) :=
  [ (".txt", PlainText); (".pdf", Pdf); (".docx", Docx);
    (".png", Image); (".jpg", Image); (".jpeg", Image); (".bmp", Image) ].

(** Some tail of [name] is [suffix] up to the case of letters. *)
Fixpoint suffix_ignoring_case (suffix name : string) : bool :=
  (toLowerCase name =? toLowerCase suffix) ||
  match name with
  | String _ r => suffix_ignoring_case suffix r
  | EmptyString => false
  end.

(** First match wins. *)
Fixpoint first_match (table : list (string * Kind)) (name : string) : Kind :=
  match table with
  | [] => Unsupported
  | (suffix, k) :: r =>
      if suffix_ignoring_case suffix name then k else first_match r name
  end.

Definition detectedKind (name : string) : Kind := first_match precedence name.

(** ** Section 4.1: what each extractor produces *)

(** The text of one page: fragments joined by single spaces, then a
    newline. *)
Definition page_text (fragments : list string) : string :=
  String.concat " " fragments ++ LF.

(** The text of a document: the page texts one after the other. *)
Definition document_text (pages : list (list string)) : string :=
  String.concat "" (map page_text pages).

(** The fragments of page [i], when the page and its text content are
    delivered. *)
Definition fragments (pdf : PDFDocumentProxy) (i : nat) : result (list string) :=
  match getPage pdf i with
  | Throw e => Throw e
  | Ok page =>
      match getTextContent page with
      | Throw e => Throw e
      | Ok content => Ok (map str (items content))
      end
  end.

(** The page texts of the pages listed, or the first failure. *)
Fixpoint pages_text (pdf : PDFDocumentProxy) (pages : list nat) : result string :=
  match pages with
  | [] => Ok ""
  | i :: r =>
      match fragments pdf i with
      | Throw e => Throw e
      | Ok f =>
          match pages_text pdf r with
          | Throw e => Throw e
          | Ok t => Ok (page_text f ++ t)%string
          end
      end
  end.

(** [import(file)] as a function: the extracted string, or the failure. *)
Definition extraction (host : Host) (file : File.t) (k : Kind) : result string :=
  match k with
  | PlainText => File.text file
  | Pdf =>
      match File.arrayBuffer file with
      | Throw e => Throw e
      | Ok buffer =>
          match pdfjsLib_getDocument host buffer with
          | Throw e => Throw e
          | Ok pdf => pages_text pdf (seq 1 (numPages pdf))
          end
      end
  | Docx =>
      match File.arrayBuffer file with
      | Throw e => Throw e
      | Ok buffer => mammoth_extractRawText host buffer
      end
  | Image => Tesseract_recognize host file "eng"
  | Unsupported => Throw (Failure "UnsupportedType")
  end.

(** [s] with its text replaced, nothing else touched. *)
Definition replace_text (t : string) (s : State) : State :=
  {| text := t; font := font s; fontSize := fontSize s;
     lineHeight := lineHeight s; letterSpacing := letterSpacing s;
     bgColor := bgColor s; textColor := textColor s;
     rate := rate s; isReading := isReading s |}.

(** The alerts shown so far. *)
Definition alerts (tr : list event) : list string :=
  flat_map (fun e => match e with Alert m => [m] | _ => [] end) tr.

(** ** Section 4.3: the overlay of persisted values *)

(** Overlay as the guards [if (s.k)] make it: a key overwrites the
    default when its value is truthy. *)
Definition truthy_or (k : string) (o : list (string * value)) (d : value) : value :=
  match member k o with
  | Some v => if ToBoolean v then v else d
  | None => d
  end.

Definition overlay_truthy (o : list (string * value)) (s : State) : State :=
  {| text := text s;
     font := truthy_or "font" o (font s);
     fontSize := truthy_or "fontSize" o (fontSize s);
     lineHeight := truthy_or "lineHeight" o (lineHeight s);
     letterSpacing := truthy_or "letterSpacing" o (letterSpacing s);
     bgColor := truthy_or "bgColor" o (bgColor s);
     textColor := truthy_or "textColor" o (textColor s);
     rate := rate s; isReading := isReading s |}.

(** ** What the importer leaves in the trace *)

Fixpoint with_events (es : list event) (w : World) : World :=
  match es with
  | [] => w
  | e :: r => with_events r (with_event e w)
  end.

(** The pages asked for: those listed, up to the first that fails. *)
Fixpoint visited (pdf : PDFDocumentProxy) (pages : list nat) : list nat :=
  match pages with
  | [] => []
  | i :: r =>
      match fragments pdf i with
      | Ok _ => i :: visited pdf r
      | Throw _ => [i]
      end
  end.

(** The page requests [readPDF] makes for [file]. *)
Definition page_requests (host : Host) (file : File.t) : list event :=
  match File.arrayBuffer file with
  | Throw _ => []
  | Ok buffer =>
      match pdfjsLib_getDocument host buffer with
      | Throw _ => []
      | Ok pdf => map PdfGetPage (visited pdf (seq 1 (numPages pdf)))
      end
  end.

(** The page requests an import of kind [k] makes. *)
Definition requests (host : Host) (file : File.t) (k : Kind) : list event :=
  match k with
  | Pdf => page_requests host file
  | _ => []
  end.


(* ================================================================== *)
(** * Concrete browsers, files and pages *)
(* ================================================================== *)

Definition one_item_page (s : string) : PDFPageProxy :=
  {| getTextContent := Ok {| items := [ {| str := s |} ] |} |}.

(** Two pages, one fragment each. *)
Definition hello_world_pdf : PDFDocumentProxy :=
  {| numPages := 2;
     getPage := fun i =>
       match i with
       | 1 => Ok (one_item_page "Hello")
       | 2 => Ok (one_item_page "World")
       | _ => Throw (Failure "Invalid page request")
       end |}.

(** A browser with the reference parser, whose libraries answer every
    request the same way. *)
Definition browser (pdf : result PDFDocumentProxy) (docx ocr : result string)
  : Host :=
  {| JSON_parse := JSON.parse;
     pdfjsLib_getDocument := fun _ => pdf;
     mammoth_extractRawText := fun _ => docx;
     Tesseract_recognize := fun _ _ => ocr |}.

Definition failing_browser : Host :=
  browser (Throw (Failure "InvalidPDFException"))
          (Throw (Failure "Could not find the body element"))
          (Throw (Failure "Error attempting to read image")).

Definition hello_world_browser : Host :=
  browser (Ok hello_world_pdf) (Ok "from docx") (Ok "from image").

(** A readable file of the given name. *)
Definition file_named (n : string) : File.t :=
  {| File.name := n; File.text := Ok "plain text"; File.arrayBuffer := Ok [] |}.

(** A file that can no longer be read when the importer asks for it. *)
Definition unreadable_file (n : string) : File.t :=
  {| File.name := n;
     File.text := Throw (Failure "NotReadableError");
     File.arrayBuffer := Throw (Failure "NotReadableError") |}.

(** The page just mounted, a file chosen in its file input. *)
Definition mounted (speech : option (list SpeechSynthesisUtterance))
  (stored : option string) : World :=
  {| state := initial_state;
     speechSynthesis := speech;
     localStorage := fun k =>
       if k =? "dyslexia_ui_settings" then stored else None;
     fileInput_value := "C:\fakepath\upload";
     trace := [] |}.

(** [s] with its reading flag set, nothing else touched. *)
Definition reading (b : bool) (s : State) : State :=
  {| text := text s; font := font s; fontSize := fontSize s;
     lineHeight := lineHeight s; letterSpacing := letterSpacing s;
     bgColor := bgColor s; textColor := textColor s;
     rate := rate s; isReading := b |}.

(** The utterance [playTTS] builds in [w]. *)
Definition utterance_of (w : World) : SpeechSynthesisUtterance :=
  {| utterance_text := text (state w); utterance_rate := rate (state w) |}.

(** The blob of the specification's scenario:
    [{"font":"openDyslexic","fontSize":99}]. *)
Definition blob_fontSize_99 : string :=
  "{" ++ JSON.quoted "font" ++ ":" ++ JSON.quoted "openDyslexic" ++ ","
      ++ JSON.quoted "fontSize" ++ ":99}".

(** [{"lineHeight":2}]. *)
Definition blob_lineHeight_2 : string :=
  "{" ++ JSON.quoted "lineHeight" ++ ":2}".

(** An utterance in flight. *)
Definition earlier_utterance : SpeechSynthesisUtterance :=
  {| utterance_text := "Once upon a time"; utterance_rate := Finite (1 # 1) |}.

(* ================================================================== *)
(** * The save effect and the effects at mount *)
(* ================================================================== *)

Definition with_localStorage (f : string -> option string) (w : World) : World :=
  {| state := state w;
     speechSynthesis := speechSynthesis w;
     localStorage := f;
     fileInput_value := fileInput_value w;
     trace := trace w |}.

(** [localStorage.setItem(k, v)]; the store is taken to have room. *)
Definition setItem (k v : string) : M unit :=
  modify (fun w =>
    with_localStorage
      (fun k' => if k' =? k then Some v else localStorage w k') w).

(** The object literal of lines 60-65. *)
Definition settings_object (s : State) : value :=
  Obj [ ("font", font s);
        ("fontSize", fontSize s);
        ("lineHeight", lineHeight s);
        ("letterSpacing", letterSpacing s);
        ("bgColor", bgColor s);
        ("textColor", textColor s) ].

(** Save preferences (lines 56-68), for a given [JSON.stringify]. *)
Definition save_preferences (JSON_stringify : value -> string) : M unit :=
  s <- get_state ;;
  setItem "dyslexia_ui_settings" (JSON_stringify (settings_object s)).

(** After the first render React runs the effects of a component in the
    order of their declaration: the save effect (line 56), then the load
    effect (line 71). *)
Definition mount_effects (host : Host) (JSON_stringify : value -> string)
  : M unit :=
  save_preferences JSON_stringify ;;
  load_preferences host.

(** The six persisted fields of two states are the same. *)
Definition same_settings (s s' : State) : Prop :=
  font s' = font s /\ fontSize s' = fontSize s /\
  lineHeight s' = lineHeight s /\ letterSpacing s' = letterSpacing s /\
  bgColor s' = bgColor s /\ textColor s' = textColor s.

(** The six names the load effect reads. *)
Definition persisted_keys : list string :=
  ["font"; "fontSize"; "lineHeight"; "letterSpacing"; "bgColor"; "textColor"].

(** The truthy values an object holds for the numeric keys lie within
    the intervals of the settings. *)
Definition numbers_in_range (o : list (string * value)) : Prop :=
  (forall v, member "fontSize" o = Some v -> ToBoolean v = true ->
     value_between (14 # 1) (48 # 1) v) /\
  (forall v, member "lineHeight" o = Some v -> ToBoolean v = true ->
     value_between (1 # 1) (24 # 10) v) /\
  (forall v, member "letterSpacing" o = Some v -> ToBoolean v = true ->
     value_between (0 # 1) (4 # 1) v).

(* ================================================================== *)
(** * A reference [JSON.stringify] *)
(* ================================================================== *)

(** Like [JSON.parse], [JSON.stringify] is a parameter of what follows;
    this one is what the concrete examples run.  Numbers are printed in
    plain decimal notation, at most thirty digits after the point;
    members whose value is [undefined] are left out; [undefined] in an
    array, [NaN] and the infinities are printed as [null]. *)
Module Stringify.

Local Open Scope char_scope.

Definition hex_digit (n : N) : ascii :=
  if (n <? 10)%N then ascii_of_N (48 + n) else ascii_of_N (87 + n).

Definition escape_char (c : ascii) : string :=
  let bs (x : ascii) := String JSON.BACKSLASH (String x EmptyString) in
  if c =? JSON.DQUOTE then bs JSON.DQUOTE
  else if c =? JSON.BACKSLASH then bs JSON.BACKSLASH
  else if c =? ascii_of_nat 8 then bs "b"
  else if c =? ascii_of_nat 12 then bs "f"
  else if c =? ascii_of_nat 10 then bs "n"
  else if c =? ascii_of_nat 13 then bs "r"
  else if c =? ascii_of_nat 9 then bs "t"
  else if (N_of_ascii c <? 32)%N then
    String JSON.BACKSLASH
      (String "u" (String "0" (String "0"
         (String (hex_digit (N_of_ascii c / 16))
            (String (hex_digit (N_of_ascii c mod 16)) EmptyString)))))
  else String c EmptyString.

Fixpoint escape (s : string) : string :=
  match s with
  | EmptyString => EmptyString
  | String c r => (escape_char c ++ escape r)%string
  end.

Definition quote (s : string) : string :=
  String JSON.DQUOTE (escape s ++ String JSON.DQUOTE EmptyString).

(** The decimal digits of [n] in front of [acc]. *)
Fixpoint digits_before (fuel : nat) (n : N) (acc : string) : string :=
  match fuel with
  | O => acc
  | S fuel' =>
      let acc' := String (ascii_of_N (48 + n mod 10)) acc in
      if (n / 10 =? 0)%N then acc' else digits_before fuel' (n / 10) acc'
  end.

Definition natural (n : N) : string :=
  digits_before (S (N.size_nat n)) n EmptyString.

(** The digits of [r / d] after the point, [r < d]. *)
Fixpoint fraction (fuel : nat) (r d : N) : string :=
  match fuel with
  | O => EmptyString
  | S fuel' =>
      if (r =? 0)%N then EmptyString
      else String (ascii_of_N (48 + (10 * r) / d))
             (fraction fuel' ((10 * r) mod d) d)
  end.

Definition number_text (q : Q) : string :=
  let a := Z.abs_N (Qnum q) in
  let d := Npos (Qden q) in
  let frac := fraction 30 (a mod d) d in
  ((if (Qnum q <? 0)%Z then "-" else "")
   ++ natural (a / d)
   ++ (if (frac =? "")%string then "" else String "." frac))%string.

Fixpoint stringify (v : value) : string :=
  match v with
  | Undefined | Null => "null"
  | Bool true => "true"
  | Bool false => "false"
  | Num (Finite q) => number_text q
  | Num _ => "null"
  | Str s => quote s
  | Arr l =>
      ("[" ++ String.concat ","
                ((fix elements (l : list value) : list string :=
                    match l with
                    | [] => []
                    | x :: r => stringify x :: elements r
                    end) l)
           ++ "]")%string
  | Obj ms =>
      ("{" ++ String.concat ","
                ((fix members (ms : list (string * value)) : list string :=
                    match ms with
                    | [] => []
                    | (k, x) :: r =>
                        match x with
                        | Undefined => members r
                        | _ => (quote k ++ ":" ++ stringify x)%string :: members r
                        end
                    end) ms)
           ++ "}")%string
  end.

End Stringify.

(* ================================================================== *)
(** * More concrete documents *)
(* ================================================================== *)

(** Three pages; the second cannot be delivered. *)
Definition pdf_with_bad_page : PDFDocumentProxy :=
  {| numPages := 3;
     getPage := fun i =>
       match i with
       | 1 => Ok (one_item_page "One")
       | 2 => Throw (Failure "Invalid page request")
       | 3 => Ok (one_item_page "Three")
       | _ => Throw (Failure "Invalid page request")
       end |}.

(** A document without pages. *)
Definition pdf_without_pages : PDFDocumentProxy :=
  {| numPages := 0;
     getPage := fun _ => Throw (Failure "Invalid page request") |}.

(** [{"fontSize":30}] and the same with a key the page does not know,
    [{"theme":"dark","fontSize":30}]. *)
Definition blob_fontSize_30 : string :=
  "{" ++ JSON.quoted "fontSize" ++ ":30}".

Definition blob_theme_fontSize_30 : string :=
  "{" ++ JSON.quoted "theme" ++ ":" ++ JSON.quoted "dark" ++ ","
      ++ JSON.quoted "fontSize" ++ ":30}".

(** A session: the actions one after the other. *)
Fixpoint run (host : Host) (actions : list action) (w : World) : World :=
  match actions with
  | [] => w
  | a :: r => run host r (snd (handle host a w))
  end.

(* ################################################################## *)
(** * Theorems *)
(* ################################################################## *)

(* ================================================================== *)
(** * The reference parser on a few texts *)
(* ================================================================== *)

Example parse_empty_object : JSON.parse "{}" = Ok (Obj []).
Proof. reflexivity. Qed.

Example parse_nested :
  JSON.parse " [1, 2.5e1, -0.25, true, null, {}, [ ] ] "
  = Ok (Arr [Num (Finite (1 # 1)); Num (Finite (25 # 1));
             Num (Finite (-25 # 100)); Bool true; Null; Obj []; Arr []]).
Proof. reflexivity. Qed.

Example parse_escape :
  JSON.parse (JSON.quoted "aA\n") =
  Ok (Str (String "a" (String "A" LF))).
Proof. reflexivity. Qed.

Example parse_duplicate_key :
  match JSON.parse ("{" ++ JSON.quoted "k" ++ ":1," ++ JSON.quoted "k" ++ ":2}") with
  | Ok v => Get v "k"
  | Throw e => Throw e
  end = Ok (Num (Finite (2 # 1))).
Proof. reflexivity. Qed.

Example parse_rejects_empty : JSON.parse "" = Throw SyntaxError.
Proof. reflexivity. Qed.

Example parse_rejects_leading_zero : JSON.parse "01" = Throw SyntaxError.
Proof. reflexivity. Qed.

Example parse_rejects_trailing_comma : JSON.parse "[1,]" = Throw SyntaxError.
Proof. reflexivity. Qed.

Example parse_rejects_open_brace : JSON.parse "{oops" = Throw SyntaxError.
Proof. reflexivity. Qed.

Example parse_null_has_no_property :
  match JSON.parse "null" with
  | Ok v => Get v "font"
  | Throw e => Throw e
  end = Throw TypeError.
Proof. reflexivity. Qed.

(* ================================================================== *)
(** * Strings *)
(* ================================================================== *)

Lemma substring_whole (s : string) : substring 0 (String.length s) s = s.
Proof.
  induction s as [|c r IH]; simpl; [reflexivity | now rewrite IH].
Qed.

Lemma eqb_length_neq (s x : string) :
  String.length s <> String.length x -> (s =? x) = false.
Proof.
  intros H. apply String.eqb_neq. intros ->. now apply H.
Qed.

(** [endsWith] peels one character at a time. *)
Lemma endsWith_cons (c : ascii) (r x : string) :
  endsWith (String c r) x = (String c r =? x) || endsWith r x.
Proof.
  unfold endsWith. cbn [String.length].
  destruct (Nat.lt_trichotomy (String.length x) (S (String.length r)))
    as [Hlt | [Heq | Hgt]].
  - rewrite (eqb_length_neq (String c r) x) by (cbn [String.length]; lia).
    replace (S (String.length r) - String.length x)
      with (S (String.length r - String.length x)) by lia.
    replace (String.length x <=? S (String.length r))%nat with true
      by (symmetry; apply Nat.leb_le; lia).
    replace (String.length x <=? String.length r)%nat with true
      by (symmetry; apply Nat.leb_le; lia).
    reflexivity.
  - replace (String.length x <=? String.length r)%nat with false
      by (symmetry; apply Nat.leb_gt; lia).
    rewrite Heq, Nat.leb_refl, Nat.sub_diag.
    change (S (String.length r)) with (String.length (String c r)).
    rewrite substring_whole. cbn [andb orb]. now rewrite orb_false_r.
  - replace (String.length x <=? S (String.length r))%nat with false
      by (symmetry; apply Nat.leb_gt; lia).
    replace (String.length x <=? String.length r)%nat with false
      by (symmetry; apply Nat.leb_gt; lia).
    rewrite (eqb_length_neq (String c r) x) by (cbn [String.length]; lia).
    reflexivity.
Qed.

Lemma endsWith_nil (x : string) : endsWith "" x = ("" =? x).
Proof.
  unfold endsWith. destruct x as [|c r]; reflexivity.
Qed.

(** [endsWith] is the suffix relation. *)
Lemma endsWith_suffix (s x : string) :
  endsWith s x = true <-> exists p, s = (p ++ x)%string.
Proof.
  induction s as [|c r IH].
  - rewrite endsWith_nil. split.
    + intros H. apply String.eqb_eq in H. subst x. now exists "".
    + intros [p Hp]. destruct p; simpl in Hp; [subst x; reflexivity | discriminate].
  - rewrite endsWith_cons, orb_true_iff, IH. split.
    + intros [H | [p Hp]].
      * apply String.eqb_eq in H. subst x. now exists "".
      * exists (String c p). simpl. now rewrite Hp.
    + intros [p Hp]. destruct p as [|d p]; simpl in Hp.
      * left. subst x. apply String.eqb_refl.
      * right. exists p. now inversion Hp.
Qed.

(** On a suffix written in lower case, the importer's test is the
    case-insensitive suffix test. *)
Lemma endsWith_toLowerCase (suffix name : string) :
  toLowerCase suffix = suffix ->
  endsWith (toLowerCase name) suffix = suffix_ignoring_case suffix name.
Proof.
  intros Hs. induction name as [|c r IH].
  - change (toLowerCase "") with "". rewrite endsWith_nil.
    cbn [suffix_ignoring_case toLowerCase]. now rewrite Hs, orb_false_r.
  - change (toLowerCase (String c r))
      with (String (lower_ascii c) (toLowerCase r)).
    rewrite endsWith_cons, IH.
    change (suffix_ignoring_case suffix (String c r))
      with ((toLowerCase (String c r) =? toLowerCase suffix)
            || suffix_ignoring_case suffix r).
    now rewrite Hs.
Qed.

Lemma toLowerCase_app (a b : string) :
  toLowerCase (a ++ b) = (toLowerCase a ++ toLowerCase b)%string.
Proof.
  induction a as [|c a IH]; simpl; [reflexivity | now rewrite IH].
Qed.

(** The test of the precedence table: some tail of the name is the
    suffix, letter case apart. *)
Lemma suffix_ignoring_case_tail (suffix name : string) :
  suffix_ignoring_case suffix name = true <->
  exists p t, name = (p ++ t)%string /\ toLowerCase t = toLowerCase suffix.
Proof.
  induction name as [|c r IH].
  - cbn [suffix_ignoring_case]. rewrite orb_false_r, String.eqb_eq. split.
    + intros H. now exists "", "".
    + intros (p & t & Hn & Ht). destruct p; [|discriminate Hn].
      simpl in Hn. now subst t.
  - cbn [suffix_ignoring_case]. rewrite orb_true_iff, IH, String.eqb_eq. split.
    + intros [H | (p & t & Hn & Ht)].
      * now exists "", (String c r).
      * exists (String c p), t. split; [simpl; now rewrite Hn | exact Ht].
    + intros (p & t & Hn & Ht). destruct p as [|d p]; simpl in Hn.
      * left. now subst t.
      * right. exists p, t. split; [now inversion Hn | exact Ht].
Qed.

(** Names that differ by letter case only are of the same kind. *)
Lemma detectedKind_ignores_case (n1 n2 : string) :
  toLowerCase n1 = toLowerCase n2 -> detectedKind n1 = detectedKind n2.
Proof.
  intros H. unfold detectedKind, precedence. cbn [first_match].
  rewrite <- !(endsWith_toLowerCase _ n1), <- !(endsWith_toLowerCase _ n2)
    by reflexivity.
  now rewrite H.
Qed.

Example detectedKind_upper : detectedKind "REPORT.PDF" = Pdf.
Proof. reflexivity. Qed.

Example detectedKind_last_suffix : detectedKind "notes.txt.Docx" = Docx.
Proof. reflexivity. Qed.

Example detectedKind_jpeg : detectedKind "scan.JpEg" = Image.
Proof. reflexivity. Qed.

Example detectedKind_other : detectedKind "archive.tar.gz" = Unsupported.
Proof. reflexivity. Qed.

Example detectedKind_bare : detectedKind "txt" = Unsupported.
Proof. reflexivity. Qed.

(* ================================================================== *)
(** * The importer *)
(* ================================================================== *)

Lemma existsb_image_suffixes (name : string) :
  existsb (fun x => endsWith (toLowerCase name) x)
    [".png"; ".jpg"; ".jpeg"; ".bmp"] =
  suffix_ignoring_case ".png" name || suffix_ignoring_case ".jpg" name
  || suffix_ignoring_case ".jpeg" name || suffix_ignoring_case ".bmp" name.
Proof.
  cbn [existsb].
  rewrite !endsWith_toLowerCase by reflexivity.
  rewrite orb_false_r, !orb_assoc. reflexivity.
Qed.

(** The chain of tests of [handleFileUpload] picks the branch that
    [detectedKind] names. *)
Lemma handleFileUpload_dispatch
  (host : Host) (file : File.t) (rest : list File.t) (w : World) :
  handleFileUpload host (Some (file :: rest)) w =
    ((match detectedKind (File.name file) with
      | PlainText => txt <- await (File.text file) ;; setText txt
      | Pdf => detach (readPDF host file)
      | Docx => detach (readDOCX host file)
      | Image => detach (readImage host file)
      | Unsupported => alert "Unsupported file type"
      end) ;;
     modify (with_fileInput_value "")) w.
Proof.
  unfold handleFileUpload, detectedKind, precedence.
  cbn [first_match].
  rewrite existsb_image_suffixes.
  rewrite !endsWith_toLowerCase by reflexivity.
  destruct (suffix_ignoring_case ".txt" (File.name file)); [reflexivity|].
  destruct (suffix_ignoring_case ".pdf" (File.name file)); [reflexivity|].
  destruct (suffix_ignoring_case ".docx" (File.name file)); [reflexivity|].
  destruct (suffix_ignoring_case ".png" (File.name file)); [reflexivity|].
  destruct (suffix_ignoring_case ".jpg" (File.name file)); [reflexivity|].
  destruct (suffix_ignoring_case ".jpeg" (File.name file)); [reflexivity|].
  destruct (suffix_ignoring_case ".bmp" (File.name file)); reflexivity.
Qed.

(** With no file chosen the handler does nothing. *)
Lemma handleFileUpload_no_file (host : Host) (w : World) :
  handleFileUpload host None w = (Ok tt, w) /\
  handleFileUpload host (Some []) w = (Ok tt, w).
Proof. split; reflexivity. Qed.

(** C1. The upload handler routes a file by the suffix of its name, case
    ignored, first match of the precedence table [.txt], [.pdf], [.docx],
    [.png/.jpg/.jpeg/.bmp]: to the plain-text read, to [readPDF], to
    [readDOCX], to [readImage]; any other name gets the alert
    "Unsupported file type" and the state, text included, is untouched. *)
Theorem handleFileUpload_routes_by_suffix
  (host : Host) (file : File.t) (rest : list File.t) (w : World) :
  handleFileUpload host (Some (file :: rest)) w =
    ((match detectedKind (File.name file) with
      | PlainText => txt <- await (File.text file) ;; setText txt
      | Pdf => detach (readPDF host file)
      | Docx => detach (readDOCX host file)
      | Image => detach (readImage host file)
      | Unsupported => alert "Unsupported file type"
      end) ;;
     modify (with_fileInput_value "")) w
  /\ (detectedKind (File.name file) = Unsupported ->
      let w' := snd (handleFileUpload host (Some (file :: rest)) w) in
      state w' = state w /\
      trace w' = trace w ++ [Alert "Unsupported file type"]).
Proof.
  split; [apply handleFileUpload_dispatch|].
  intros Hk. rewrite handleFileUpload_dispatch, Hk. split; reflexivity.
Qed.

Lemma handleFileUpload_routes_by_suffix_witness :
  detectedKind (File.name (file_named "drawing.svg")) = Unsupported /\
  trace (snd (handleFileUpload failing_browser
                (Some [file_named "drawing.svg"]) (mounted None None)))
  = [Alert "Unsupported file type"].
Proof.
  split; [reflexivity|].
  apply (handleFileUpload_routes_by_suffix failing_browser
           (file_named "drawing.svg") [] (mounted None None)).
  reflexivity.
Defined.

(** ** The page loop of [readPDF] *)

Lemma append_assoc (a b c : string) : ((a ++ b) ++ c = a ++ (b ++ c))%string.
Proof.
  induction a as [|x a IH]; simpl; [reflexivity | now rewrite IH].
Qed.

Lemma append_nil_r (a : string) : (a ++ "")%string = a.
Proof.
  induction a as [|x a IH]; simpl; [reflexivity | now rewrite IH].
Qed.

Lemma with_events_app (es1 es2 : list event) (w : World) :
  with_events (es1 ++ es2) w = with_events es2 (with_events es1 w).
Proof.
  revert w. induction es1 as [|e r IH]; intros w; simpl; [reflexivity | apply IH].
Qed.

(** From page [i] on, the loop asks for the pages in increasing order up
    to the first that fails, and returns what it was given followed by
    their texts. *)
Lemma readPDF_pages_spec (pdf : PDFDocumentProxy) (i : nat) (fullText : string)
  (w : World) :
  readPDF_pages pdf i fullText w =
  (match pages_text pdf (seq i (S (numPages pdf) - i)) with
   | Ok t => Ok (fullText ++ t)%string
   | Throw e => Throw e
   end,
   with_events (map PdfGetPage (visited pdf (seq i (S (numPages pdf) - i)))) w).
Proof.
  funelim (readPDF_pages pdf i fullText w).
  - replace (S (numPages pdf) - i) with (S (S (numPages pdf) - S i)) by lia.
    cbn [seq pages_text visited].
    unfold bind at 1. cbn [modify]. unfold bind at 1, await at 1.
    unfold fragments.
    destruct (getPage pdf i) as [page | e]; [|reflexivity].
    unfold bind at 1, await at 1.
    destruct (getTextContent page) as [content | e]; [|reflexivity].
    match goal with
    | IH : unit -> PDFPageProxy -> _ |- _ => rewrite (IH tt page content)
    end.
    cbn [map with_events].
    destruct (pages_text pdf (seq (S i) (S (numPages pdf) - S i))) as [t | e];
      [|reflexivity].
    unfold page_text, join. now rewrite !append_assoc.
  - replace (S (numPages pdf) - i) with 0 by lia.
    cbn [seq pages_text visited map with_events]. unfold ret.
    now rewrite append_nil_r.
Qed.

Lemma state_with_events (es : list event) (w : World) :
  state (with_events es w) = state w.
Proof.
  revert w. induction es as [|e r IH]; intros w; simpl; [reflexivity | now rewrite IH].
Qed.

Lemma speechSynthesis_with_events (es : list event) (w : World) :
  speechSynthesis (with_events es w) = speechSynthesis w.
Proof.
  revert w. induction es as [|e r IH]; intros w; simpl; [reflexivity | now rewrite IH].
Qed.

Lemma fileInput_value_with_events (es : list event) (w : World) :
  fileInput_value (with_events es w) = fileInput_value w.
Proof.
  revert w. induction es as [|e r IH]; intros w; simpl; [reflexivity | now rewrite IH].
Qed.

Lemma trace_with_events (es : list event) (w : World) :
  trace (with_events es w) = trace w ++ es.
Proof.
  revert w. induction es as [|e r IH]; intros w; simpl.
  - now rewrite app_nil_r.
  - rewrite IH. simpl. now rewrite <- app_assoc.
Qed.

Lemma alerts_app (a b : list event) : alerts (a ++ b) = alerts a ++ alerts b.
Proof. unfold alerts. apply flat_map_app. Qed.

Lemma alerts_PdfGetPage (l : list nat) : alerts (map PdfGetPage l) = [].
Proof. induction l as [|i r IH]; simpl; [reflexivity | exact IH]. Qed.

Lemma alerts_page_requests (host : Host) (file : File.t) :
  alerts (page_requests host file) = [].
Proof.
  unfold page_requests.
  destruct (File.arrayBuffer file) as [b|]; [|reflexivity].
  destruct (pdfjsLib_getDocument host b) as [pdf|]; [|reflexivity].
  apply alerts_PdfGetPage.
Qed.

(** ** The three readers and the handler, as functions of the extraction *)

Lemma readPDF_spec (host : Host) (file : File.t) (w : World) :
  readPDF host file w =
  match extraction host file Pdf with
  | Ok t => (Ok tt, with_state (replace_text t)
                      (with_events (page_requests host file) w))
  | Throw e => (Throw e, with_events (page_requests host file) w)
  end.
Proof.
  unfold readPDF, extraction, page_requests, bind, await.
  destruct (File.arrayBuffer file) as [buffer | e]; [|reflexivity].
  destruct (pdfjsLib_getDocument host buffer) as [pdf | e]; [|reflexivity].
  rewrite readPDF_pages_spec.
  replace (S (numPages pdf) - 1) with (numPages pdf) by lia.
  destruct (pages_text pdf (seq 1 (numPages pdf))) as [t | e]; reflexivity.
Qed.

Lemma readDOCX_spec (host : Host) (file : File.t) (w : World) :
  readDOCX host file w =
  match extraction host file Docx with
  | Ok t => (Ok tt, with_state (replace_text t) w)
  | Throw e => (Throw e, w)
  end.
Proof.
  unfold readDOCX, extraction, bind, await.
  destruct (File.arrayBuffer file) as [buffer | e]; [|reflexivity].
  destruct (mammoth_extractRawText host buffer); reflexivity.
Qed.

Lemma readImage_spec (host : Host) (file : File.t) (w : World) :
  readImage host file w =
  match extraction host file Image with
  | Ok t => (Ok tt, with_state (replace_text t) w)
  | Throw e => (Throw e, w)
  end.
Proof.
  unfold readImage, extraction, bind, await.
  destruct (Tesseract_recognize host file "eng"); reflexivity.
Qed.

Lemma handleFileUpload_spec (host : Host) (file : File.t) (rest : list File.t)
  (w : World) :
  handleFileUpload host (Some (file :: rest)) w =
  let k := detectedKind (File.name file) in
  match k, extraction host file k with
  | Unsupported, _ =>
      (Ok tt, with_fileInput_value ""
                (with_event (Alert "Unsupported file type") w))
  | PlainText, Throw e => (Throw e, w)
  | _, Ok t =>
      (Ok tt, with_fileInput_value ""
                (with_state (replace_text t)
                   (with_events (requests host file k) w)))
  | _, Throw e =>
      (Ok tt, with_fileInput_value ""
                (with_event (UnhandledRejection e)
                   (with_events (requests host file k) w)))
  end.
Proof.
  rewrite handleFileUpload_dispatch.
  cbv zeta. destruct (detectedKind (File.name file)).
  - unfold bind, await. cbn [extraction requests with_events].
    destruct (File.text file); reflexivity.
  - unfold bind, detach. rewrite readPDF_spec. cbn [requests].
    destruct (extraction host file Pdf); reflexivity.
  - unfold bind, detach. rewrite readDOCX_spec. cbn [requests with_events].
    destruct (extraction host file Docx); reflexivity.
  - unfold bind, detach. rewrite readImage_spec. cbn [requests with_events].
    destruct (extraction host file Image); reflexivity.
  - reflexivity.
Qed.

(** ** The order of the reset and of a reader the handler does not await *)

Lemma with_fileInput_value_with_events (v : string) (es : list event)
  (w : World) :
  with_fileInput_value v (with_events es w) =
  with_events es (with_fileInput_value v w).
Proof.
  revert w. induction es as [|e r IH]; intros w; cbn [with_events].
  - reflexivity.
  - rewrite IH. reflexivity.
Qed.

(** In the browser the reset of the file input runs before the rest of
    a reader that was started without [await]; the world after both is
    the same in either order. *)
Lemma reset_commutes_with_readers (host : Host) (file : File.t) (w : World) :
  (detach (readPDF host file) ;; modify (with_fileInput_value "")) w =
  (modify (with_fileInput_value "") ;; detach (readPDF host file)) w /\
  (detach (readDOCX host file) ;; modify (with_fileInput_value "")) w =
  (modify (with_fileInput_value "") ;; detach (readDOCX host file)) w /\
  (detach (readImage host file) ;; modify (with_fileInput_value "")) w =
  (modify (with_fileInput_value "") ;; detach (readImage host file)) w.
Proof.
  unfold bind, detach, modify.
  rewrite !readPDF_spec, !readDOCX_spec, !readImage_spec.
  destruct (extraction host file Pdf), (extraction host file Docx),
    (extraction host file Image);
    repeat split;
    unfold with_state, with_event; cbn [state speechSynthesis localStorage
      fileInput_value trace];
    rewrite <- ?with_fileInput_value_with_events; reflexivity.
Qed.

(** ** PDF extraction *)

Lemma concat_empty_cons (x : string) (xs : list string) :
  String.concat "" (x :: xs) = (x ++ String.concat "" xs)%string.
Proof.
  destruct xs as [|y ys]; cbn [String.concat].
  - now rewrite append_nil_r.
  - reflexivity.
Qed.

(** When every page listed delivers its fragments, all are visited and
    their texts are concatenated in the order listed. *)
Lemma pages_text_all (pdf : PDFDocumentProxy) (indices : list nat)
  (pages : list (list string)) :
  Forall2 (fun i f => fragments pdf i = Ok f) indices pages ->
  pages_text pdf indices = Ok (document_text pages) /\
  visited pdf indices = indices.
Proof.
  induction 1 as [|i f indices' pages' Hi _ [IHt IHv]].
  - split; reflexivity.
  - cbn [pages_text visited]. rewrite Hi, IHt, IHv.
    unfold document_text. cbn [map]. rewrite concat_empty_cons.
    split; reflexivity.
Qed.

(** C2. [readPDF] asks for the pages 1 to [numPages] in increasing
    order; when each delivers its fragments, the text written to the
    buffer is, page after page, the fragments joined by single spaces
    followed by a newline. *)
Theorem readPDF_concatenates_pages
  (host : Host) (file : File.t) (buffer : ArrayBuffer)
  (pdf : PDFDocumentProxy) (pages : list (list string)) (w : World) :
  File.arrayBuffer file = Ok buffer ->
  pdfjsLib_getDocument host buffer = Ok pdf ->
  Forall2 (fun i f => fragments pdf i = Ok f) (seq 1 (numPages pdf)) pages ->
  readPDF host file w =
    (Ok tt,
     with_state (replace_text (document_text pages))
       (with_events (map PdfGetPage (seq 1 (numPages pdf))) w)).
Proof.
  intros Hb Hd Hp.
  destruct (pages_text_all pdf _ _ Hp) as [Ht Hv].
  rewrite readPDF_spec.
  unfold extraction, page_requests. rewrite Hb, Hd, Ht, Hv. reflexivity.
Qed.

(** The scenario of the specification: pages ["Hello"] and ["World"]. *)
Lemma readPDF_concatenates_pages_witness :
  readPDF hello_world_browser (file_named "hello.pdf") (mounted None None) =
    (Ok tt,
     with_state (replace_text ("Hello" ++ LF ++ "World" ++ LF))
       (with_events [PdfGetPage 1; PdfGetPage 2] (mounted None None))).
Proof.
  apply (readPDF_concatenates_pages hello_world_browser
           (file_named "hello.pdf") [] hello_world_pdf
           [["Hello"]; ["World"]] (mounted None None)).
  - reflexivity.
  - reflexivity.
  - repeat constructor.
Defined.

Example hello_world_buffer :
  text (state (snd (handleFileUpload hello_world_browser
                      (Some [file_named "Hello.PDF"]) (mounted None None))))
  = ("Hello" ++ LF ++ "World" ++ LF)%string.
Proof. reflexivity. Qed.

(** ** Success and failure of an import *)

(** C3, amended. On success the extracted string replaces the text and
    nothing else of the state changes; on any failure the state is left
    as it was, so nothing is written in part.  An unsupported type is
    reported by an alert.  A failed PDF, DOCX or OCR extraction raises
    no alert: the rejection of the promise nobody awaits goes unhandled.
    A failed plain-text read adds nothing to the trace. *)
Theorem import_replaces_text_or_leaves_it
  (host : Host) (file : File.t) (rest : list File.t) (w : World) :
  let k := detectedKind (File.name file) in
  let w' := snd (handleFileUpload host (Some (file :: rest)) w) in
  match extraction host file k with
  | Ok t =>
      state w' = replace_text t (state w) /\
      alerts (trace w') = alerts (trace w)
  | Throw e =>
      state w' = state w /\
      match k with
      | Unsupported => trace w' = trace w ++ [Alert "Unsupported file type"]
      | PlainText => trace w' = trace w
      | _ =>
          trace w' = trace w ++ requests host file k ++ [UnhandledRejection e] /\
          alerts (trace w') = alerts (trace w)
      end
  end.
Proof.
  cbv zeta. rewrite handleFileUpload_spec. cbv zeta.
  destruct (detectedKind (File.name file)) eqn:Hk;
    destruct (extraction host file _) as [t | e] eqn:He;
    cbn [snd state trace with_fileInput_value with_state with_event
         requests with_events];
    rewrite ?state_with_events, ?trace_with_events, ?alerts_app,
      ?alerts_page_requests, ?app_nil_r, <- ?app_assoc;
    try (split; reflexivity);
    try discriminate He.
  all: repeat split; reflexivity.
Qed.

(** C3 as stated fails: a PDF that cannot be parsed leaves the text as
    it was, and no alert tells the user. *)
Lemma pdf_failure_is_not_reported :
  let file := file_named "report.pdf" in
  let w := mounted None None in
  let w' := snd (handleFileUpload failing_browser (Some [file]) w) in
  extraction failing_browser file (detectedKind (File.name file))
    = Throw (Failure "InvalidPDFException") /\
  state w' = state w /\
  trace w' = [UnhandledRejection (Failure "InvalidPDFException")] /\
  ~ (exists msg, In (Alert msg) (trace w')).
Proof.
  cbv zeta. repeat split.
  intros [msg [H | []]]. discriminate H.
Qed.

(** ** Reset of the file input *)

(** The input is emptied after every attempt but one: the handler awaits
    the plain-text read, and a rejection there ends it before the reset. *)
Lemma handleFileUpload_resets_input
  (host : Host) (file : File.t) (rest : list File.t) (w : World) :
  let w' := snd (handleFileUpload host (Some (file :: rest)) w) in
  match detectedKind (File.name file), File.text file with
  | PlainText, Throw _ => fileInput_value w' = fileInput_value w
  | _, _ => fileInput_value w' = ""
  end.
Proof.
  cbv zeta. rewrite handleFileUpload_spec. cbv zeta.
  destruct (detectedKind (File.name file));
    cbn [extraction];
    repeat match goal with
           | |- context [match ?x with Ok _ => _ | Throw _ => _ end] => destruct x
           end;
    reflexivity.
Qed.

(** C9 at the failing input: a [.txt] file whose read is rejected.  The
    handler throws and the file input keeps its value. *)
Theorem unreadable_txt_leaves_input_value :
  handleFileUpload failing_browser (Some [unreadable_file "notes.txt"])
    (mounted None None)
  = (Throw (Failure "NotReadableError"), mounted None None) /\
  fileInput_value (mounted None None) <> "".
Proof.
  split; [reflexivity | discriminate].
Qed.

(* ================================================================== *)
(** * Preferences *)
(* ================================================================== *)

Lemma with_state_same (f : State -> State) (w : World) :
  (forall s, f s = s) -> with_state f w = w.
Proof.
  intros Hf. destruct w as [s q ls v tr]. unfold with_state. cbn.
  now rewrite Hf.
Qed.

Lemma overlay_truthy_nil (s : State) : overlay_truthy [] s = s.
Proof. destruct s. reflexivity. Qed.

(** Each guarded line writes its field when the blob holds a truthy
    value for the key, and nothing otherwise. *)
Ltac restore_line :=
  intros o w; unfold restore, bind, await, Get, truthy_or;
  destruct (member _ o) as [v|]; cbn [ToBoolean];
  [destruct (ToBoolean v); [reflexivity|] |];
  (unfold ret; f_equal; symmetry; apply with_state_same;
   intros s; destruct s; reflexivity).

Lemma restore_font : forall o w,
  restore (Obj o) "font" setFont w =
  (Ok tt, with_state (fun s =>
     {| text := text s; font := truthy_or "font" o (font s);
        fontSize := fontSize s; lineHeight := lineHeight s;
        letterSpacing := letterSpacing s; bgColor := bgColor s;
        textColor := textColor s; rate := rate s;
        isReading := isReading s |}) w).
Proof. restore_line. Qed.

Lemma restore_fontSize : forall o w,
  restore (Obj o) "fontSize" setFontSize w =
  (Ok tt, with_state (fun s =>
     {| text := text s; font := font s;
        fontSize := truthy_or "fontSize" o (fontSize s);
        lineHeight := lineHeight s;
        letterSpacing := letterSpacing s; bgColor := bgColor s;
        textColor := textColor s; rate := rate s;
        isReading := isReading s |}) w).
Proof. restore_line. Qed.

Lemma restore_lineHeight : forall o w,
  restore (Obj o) "lineHeight" setLineHeight w =
  (Ok tt, with_state (fun s =>
     {| text := text s; font := font s; fontSize := fontSize s;
        lineHeight := truthy_or "lineHeight" o (lineHeight s);
        letterSpacing := letterSpacing s; bgColor := bgColor s;
        textColor := textColor s; rate := rate s;
        isReading := isReading s |}) w).
Proof. restore_line. Qed.

Lemma restore_letterSpacing : forall o w,
  restore (Obj o) "letterSpacing" setLetterSpacing w =
  (Ok tt, with_state (fun s =>
     {| text := text s; font := font s; fontSize := fontSize s;
        lineHeight := lineHeight s;
        letterSpacing := truthy_or "letterSpacing" o (letterSpacing s);
        bgColor := bgColor s;
        textColor := textColor s; rate := rate s;
        isReading := isReading s |}) w).
Proof. restore_line. Qed.

Lemma restore_bgColor : forall o w,
  restore (Obj o) "bgColor" setBgColor w =
  (Ok tt, with_state (fun s =>
     {| text := text s; font := font s; fontSize := fontSize s;
        lineHeight := lineHeight s; letterSpacing := letterSpacing s;
        bgColor := truthy_or "bgColor" o (bgColor s);
        textColor := textColor s; rate := rate s;
        isReading := isReading s |}) w).
Proof. restore_line. Qed.

Lemma restore_textColor : forall o w,
  restore (Obj o) "textColor" setTextColor w =
  (Ok tt, with_state (fun s =>
     {| text := text s; font := font s; fontSize := fontSize s;
        lineHeight := lineHeight s; letterSpacing := letterSpacing s;
        bgColor := bgColor s;
        textColor := truthy_or "textColor" o (textColor s);
        rate := rate s; isReading := isReading s |}) w).
Proof. restore_line. Qed.

(** A value that is neither an object nor [null] nor [undefined] has
    none of the six properties: nothing is written. *)
Lemma restore_no_property (v : value) (k : string) (setK : value -> M unit)
  (w : World) :
  Get v k = Ok Undefined -> restore v k setK w = (Ok tt, w).
Proof.
  intros H. unfold restore, bind, await. rewrite H. reflexivity.
Qed.

(** The load effect, in one equation: it never throws; it writes
    nothing unless the stored text parses to an object, and then it
    overlays the truthy values. *)
Lemma load_preferences_spec (host : Host) (w : World) :
  load_preferences host w =
  (Ok tt,
   match JSON_parse host
           (or_empty_object (localStorage w "dyslexia_ui_settings")) with
   | Ok (Obj o) => with_state (overlay_truthy o) w
   | _ => w
   end).
Proof.
  unfold load_preferences, try_catch.
  unfold bind at 1. unfold getItem at 1.
  unfold bind at 1. unfold await at 1.
  destruct (JSON_parse host _) as [v | e]; [|reflexivity].
  destruct v as [ | | b | n | s | l | o];
    try (unfold bind; rewrite !restore_no_property by reflexivity; reflexivity);
    try reflexivity.
  unfold bind.
  rewrite restore_font, restore_fontSize, restore_lineHeight,
    restore_letterSpacing, restore_bgColor, restore_textColor.
  reflexivity.
Qed.

(* ================================================================== *)
(** * Read aloud *)
(* ================================================================== *)

Lemma playTTS_spec (w : World) :
  playTTS w =
  match speechSynthesis w with
  | None => (Ok tt, with_event (Alert "Browser does not support TTS") w)
  | Some _ =>
      (Ok tt,
       with_event (SpeechSpeak (utterance_of w))
         (with_queue [utterance_of w]
            (with_state (reading true)
               (with_event SpeechCancel (with_queue [] w)))))
  end.
Proof.
  unfold playTTS, bind, get_state, speechSynthesis_in_window,
    speechSynthesis_cancel.
  destruct (speechSynthesis w) as [q|] eqn:Hq; cbn [negb];
    [rewrite Hq|]; reflexivity.
Qed.

Lemma stopTTS_spec (w : World) :
  stopTTS w =
  match speechSynthesis w with
  | None => (Throw TypeError, w)
  | Some _ =>
      (Ok tt, with_state (reading false)
                (with_event SpeechCancel (with_queue [] w)))
  end.
Proof.
  unfold stopTTS, bind, speechSynthesis_cancel.
  destruct (speechSynthesis w); reflexivity.
Qed.

Lemma utterance_ends_spec (w : World) :
  utterance_ends w =
  match speechSynthesis w with
  | Some (_ :: q) => (Ok tt, with_state (reading false) (with_queue q w))
  | _ => (Ok tt, w)
  end.
Proof.
  unfold utterance_ends. destruct (speechSynthesis w) as [[|u q]|]; reflexivity.
Qed.

(** ** What an action leaves alone *)

(** Rewrites the handler of the goal by its equation and splits on
    whatever the equation tests. *)
Ltac by_equation :=
  rewrite ?handleFileUpload_spec, ?load_preferences_spec, ?playTTS_spec,
    ?stopTTS_spec, ?utterance_ends_spec;
  cbv zeta;
  repeat match goal with
         | |- context [match ?x with _ => _ end] => destruct x eqn:?
         end;
  cbn [snd fst state speechSynthesis trace fileInput_value
       with_state with_queue with_event with_fileInput_value];
  rewrite ?state_with_events, ?speechSynthesis_with_events,
    ?fileInput_value_with_events, ?trace_with_events.

(** No action gives or takes the speech capability. *)
Lemma handle_speech_presence (host : Host) (a : action) (w : World) :
  speechSynthesis (snd (handle host a w)) = None <->
  speechSynthesis w = None.
Proof.
  destruct a as [ | | | | | | | | | [[|f r]|] | | | | ];
    cbn [handle]; try reflexivity; by_equation;
    try reflexivity; try (split; congruence).
Qed.

(** Without the speech capability no action changes the reading flag. *)
Lemma handle_isReading_without_speech (host : Host) (a : action) (w : World) :
  speechSynthesis w = None ->
  isReading (state (snd (handle host a w))) = isReading (state w).
Proof.
  intros Hn.
  destruct a as [ | | | | | | | | | [[|f r]|] | | | | ];
    cbn [handle]; try reflexivity; by_equation;
    try reflexivity; try congruence.
Qed.

(** In a browser without speech synthesis the controller is idle, and
    stays so. *)
Lemma reachable_idle_without_speech (host : Host) (w : World) :
  reachable host w ->
  speechSynthesis w = None -> isReading (state w) = false.
Proof.
  induction 1 as [w Hinit | w a Hr IH Hd]; intros Hn.
  - rewrite Hinit. reflexivity.
  - apply handle_speech_presence in Hn.
    rewrite handle_isReading_without_speech by exact Hn.
    now apply IH.
Qed.

(** C6. With the speech capability, [playTTS] cancels before it speaks
    and leaves exactly one utterance in the queue, made of the text and
    the rate of the moment, whatever was queued or spoken before; a
    second [playTTS], after any edit of the text and the rate, again
    leaves exactly one, made of the new text and rate. *)
Theorem playTTS_supersedes
  (w : World) (q : list SpeechSynthesisUtterance) (t : string) (r : number) :
  speechSynthesis w = Some q ->
  (fst (playTTS w) = Ok tt /\
   speechSynthesis (snd (playTTS w)) = Some [utterance_of w] /\
   isReading (state (snd (playTTS w))) = true /\
   trace (snd (playTTS w)) =
     trace w ++ [SpeechCancel; SpeechSpeak (utterance_of w)]) /\
  speechSynthesis
    (snd ((setText t ;; setRate r ;; playTTS) (snd (playTTS w)))) =
    Some [ {| utterance_text := t; utterance_rate := r |} ].
Proof.
  intros Hq. rewrite playTTS_spec, Hq. split.
  - cbn. rewrite <- app_assoc. repeat split.
  - unfold bind, setText, setRate, modify. cbn [snd].
    rewrite playTTS_spec. reflexivity.
Qed.

Lemma playTTS_supersedes_witness :
  speechSynthesis
    (snd (playTTS (snd (playTTS (mounted (Some [earlier_utterance]) None)))))
  = Some [ {| utterance_text := "Type or paste text here...";
              utterance_rate := Finite (1 # 1) |} ].
Proof.
  apply (playTTS_supersedes (mounted (Some [earlier_utterance]) None)
           [earlier_utterance] "Type or paste text here..." (Finite (1 # 1))).
  reflexivity.
Defined.

(** C7. In a browser without speech synthesis [playTTS] alerts
    "Browser does not support TTS" and changes nothing else: the
    controller, idle since the page was mounted, stays idle, and the
    text is as it was. *)
Theorem playTTS_without_speech (host : Host) (w : World) :
  reachable host w ->
  speechSynthesis w = None ->
  playTTS w = (Ok tt, with_event (Alert "Browser does not support TTS") w) /\
  isReading (state (snd (playTTS w))) = false /\
  text (state (snd (playTTS w))) = text (state w) /\
  speechSynthesis (snd (playTTS w)) = None.
Proof.
  intros Hr Hn. rewrite playTTS_spec, Hn. cbn.
  repeat split; try assumption.
  now apply (reachable_idle_without_speech host).
Qed.

Lemma playTTS_without_speech_witness :
  playTTS (mounted None None) =
  (Ok tt, with_event (Alert "Browser does not support TTS") (mounted None None)).
Proof.
  apply (playTTS_without_speech failing_browser (mounted None None)).
  - apply reachable_mount. reflexivity.
  - reflexivity.
Defined.



(** C10. [stopTTS] makes no test: without speech synthesis it throws a
    [TypeError] at [window.speechSynthesis.cancel()], before
    [setIsReading(false)], and the world is as it was; [playTTS] in the
    same browser returns after its alert. *)
Theorem stopTTS_throws_without_speech (w : World) :
  speechSynthesis w = None ->
  stopTTS w = (Throw TypeError, w) /\
  playTTS w = (Ok tt, with_event (Alert "Browser does not support TTS") w).
Proof.
  intros Hn. rewrite stopTTS_spec, playTTS_spec, Hn. split; reflexivity.
Qed.

Lemma stopTTS_throws_without_speech_witness :
  stopTTS (mounted None None) = (Throw TypeError, mounted None None).
Proof.
  apply (stopTTS_throws_without_speech (mounted None None)).
  reflexivity.
Defined.

(* ================================================================== *)
(** * The bounds of the numeric settings *)
(* ================================================================== *)

Lemma in_bounds_initial_state : in_bounds initial_state.
Proof.
  unfold in_bounds, initial_state, value_between, number_between, between, Qle.
  cbn. lia.
Qed.

(** The controls keep the numeric settings within their intervals. *)
Lemma handle_keeps_bounds (host : Host) (a : action) (w : World) :
  a <> LoadPreferences -> delivered a ->
  in_bounds (state w) -> in_bounds (state (snd (handle host a w))).
Proof.
  intros Ha Hd (Hsize & Hline & Hletter & Hrate).
  destruct a as [ | | | | | | | | | [[|f r]|] | | | | ];
    cbn [handle delivered] in *;
    try (now elim Ha);
    try by_equation;
    unfold in_bounds;
    cbn [snd state with_state modify setFont setFontSize setLineHeight
         setLetterSpacing setRate setBgColor setTextColor setText
         fontSize lineHeight letterSpacing rate replace_text reading
         overlay_truthy value_between number_between];
    repeat split; first [assumption | apply Hd].
Qed.

(* ################################################################## *)
(** * Beyond the claims: persistence *)
(* ################################################################## *)

Lemma save_preferences_spec (JSON_stringify : value -> string) (w : World) :
  save_preferences JSON_stringify w =
  (Ok tt,
   with_localStorage
     (fun k => if k =? "dyslexia_ui_settings"
               then Some (JSON_stringify (settings_object (state w)))
               else localStorage w k) w).
Proof. reflexivity. Qed.

Lemma or_empty_object_nonempty (s : string) :
  s <> "" -> or_empty_object (Some s) = s.
Proof.
  intros H. unfold or_empty_object.
  destruct (String.eqb_spec s ""); [contradiction | reflexivity].
Qed.

(** Writing back into a state the truthy ones of its own settings
    changes nothing. *)
Lemma overlay_truthy_own_settings (s : State) :
  overlay_truthy [ ("font", font s); ("fontSize", fontSize s);
                   ("lineHeight", lineHeight s);
                   ("letterSpacing", letterSpacing s);
                   ("bgColor", bgColor s); ("textColor", textColor s) ] s = s.
Proof.
  destruct s as [t f fs lh ls bg tc r ir].
  unfold overlay_truthy, truthy_or. cbn.
  destruct (ToBoolean f), (ToBoolean fs), (ToBoolean lh), (ToBoolean ls),
    (ToBoolean bg), (ToBoolean tc); reflexivity.
Qed.

(** X1. The effects at mount, the save effect first: whatever the store
    held, it now holds the settings the page was mounted with, and the
    load effect that follows reads those back and changes nothing.  The
    preferences persisted by an earlier visit are overwritten before
    they are read. *)
Theorem mount_effects_discard_persisted
  (host : Host) (JSON_stringify : value -> string) (w : World) :
  JSON_parse host (JSON_stringify (settings_object (state w)))
    = Ok (settings_object (state w)) ->
  JSON_stringify (settings_object (state w)) <> "" ->
  fst (mount_effects host JSON_stringify w) = Ok tt /\
  state (snd (mount_effects host JSON_stringify w)) = state w /\
  localStorage (snd (mount_effects host JSON_stringify w))
    "dyslexia_ui_settings"
    = Some (JSON_stringify (settings_object (state w))).
Proof.
  intros Hparse Hne.
  unfold mount_effects, bind. rewrite save_preferences_spec.
  rewrite load_preferences_spec.
  cbn [fst snd localStorage with_localStorage state String.eqb Ascii.eqb
       Bool.eqb].
  rewrite ?String.eqb_refl, or_empty_object_nonempty by exact Hne.
  rewrite Hparse. unfold settings_object.
  cbn [fst snd state with_state localStorage with_localStorage].
  rewrite overlay_truthy_own_settings, ?String.eqb_refl.
  repeat split.
Qed.

Lemma mount_effects_discard_persisted_witness :
  localStorage (mounted None (Some blob_fontSize_99)) "dyslexia_ui_settings"
    = Some blob_fontSize_99 /\
  state (snd (mount_effects failing_browser Stringify.stringify
                (mounted None (Some blob_fontSize_99))))
    = initial_state.
Proof.
  split; [reflexivity|].
  apply (mount_effects_discard_persisted failing_browser Stringify.stringify
           (mounted None (Some blob_fontSize_99))).
  - reflexivity.
  - discriminate.
Defined.

(** ** The load effect on its own *)

Lemma truthy_or_idempotent (k : string) (o : list (string * value)) (d : value) :
  truthy_or k o (truthy_or k o d) = truthy_or k o d.
Proof.
  unfold truthy_or. destruct (member k o) as [v|]; [|reflexivity].
  destruct (ToBoolean v); reflexivity.
Qed.

(** X3. Running the load effect a second time changes nothing. *)
Theorem load_preferences_idempotent (host : Host) (w : World) :
  load_preferences host (snd (load_preferences host w))
  = load_preferences host w.
Proof.
  rewrite !load_preferences_spec. cbn [snd].
  destruct (JSON_parse host
              (or_empty_object (localStorage w "dyslexia_ui_settings")))
    as [v | e] eqn:Hp.
  - destruct v; rewrite ?Hp; try reflexivity.
    cbn [localStorage with_state]. rewrite Hp.
    unfold with_state, overlay_truthy.
    cbn [state speechSynthesis localStorage fileInput_value trace
         text font fontSize lineHeight letterSpacing bgColor textColor
         rate isReading].
    now rewrite !truthy_or_idempotent.
  - rewrite Hp. reflexivity.
Qed.

(** X4. The load effect touches the six settings and nothing else: not
    the text, the rate or the reading flag, not the speech queue, the
    store or the file input, and it shows nothing. *)
Theorem load_preferences_frame (host : Host) (w : World) :
  text (state (snd (load_preferences host w))) = text (state w) /\
  rate (state (snd (load_preferences host w))) = rate (state w) /\
  isReading (state (snd (load_preferences host w))) = isReading (state w) /\
  speechSynthesis (snd (load_preferences host w)) = speechSynthesis w /\
  localStorage (snd (load_preferences host w)) = localStorage w /\
  fileInput_value (snd (load_preferences host w)) = fileInput_value w /\
  trace (snd (load_preferences host w)) = trace w.
Proof.
  rewrite load_preferences_spec. cbn [snd].
  destruct (JSON_parse host _) as [[ | | | | | | o] | e]; repeat split.
Qed.

Lemma truthy_or_ext (k : string) (o1 o2 : list (string * value)) (d : value) :
  member k o1 = member k o2 -> truthy_or k o1 d = truthy_or k o2 d.
Proof. unfold truthy_or. now intros ->. Qed.

(** X5. Only the six keys count: two stored objects that agree on them
    load to the same state, whatever other keys they hold. *)
Theorem load_preferences_reads_six_keys
  (host : Host) (w1 w2 : World) (o1 o2 : list (string * value)) :
  state w1 = state w2 ->
  JSON_parse host (or_empty_object (localStorage w1 "dyslexia_ui_settings"))
    = Ok (Obj o1) ->
  JSON_parse host (or_empty_object (localStorage w2 "dyslexia_ui_settings"))
    = Ok (Obj o2) ->
  (forall k, In k persisted_keys -> member k o1 = member k o2) ->
  state (snd (load_preferences host w1)) = state (snd (load_preferences host w2)).
Proof.
  intros Hs H1 H2 Hk.
  rewrite !load_preferences_spec, H1, H2. cbn [snd state with_state].
  rewrite Hs. unfold overlay_truthy.
  rewrite (truthy_or_ext "font" o1 o2), (truthy_or_ext "fontSize" o1 o2),
    (truthy_or_ext "lineHeight" o1 o2), (truthy_or_ext "letterSpacing" o1 o2),
    (truthy_or_ext "bgColor" o1 o2), (truthy_or_ext "textColor" o1 o2);
    try reflexivity; apply Hk; unfold persisted_keys; simpl; tauto.
Qed.

Lemma load_preferences_reads_six_keys_witness :
  state (snd (load_preferences failing_browser
                (mounted None (Some blob_theme_fontSize_30))))
  = state (snd (load_preferences failing_browser
                  (mounted None (Some blob_fontSize_30)))).
Proof.
  apply (load_preferences_reads_six_keys failing_browser
           (mounted None (Some blob_theme_fontSize_30))
           (mounted None (Some blob_fontSize_30))
           [("theme", Str "dark"); ("fontSize", Num (Finite (30 # 1)))]
           [("fontSize", Num (Finite (30 # 1)))]).
  - reflexivity.
  - reflexivity.
  - reflexivity.
  - intros k [<- | [<- | [<- | [<- | [<- | [<- | []]]]]]]; reflexivity.
Defined.

Lemma truthy_or_between (k : string) (o : list (string * value)) (d : value)
  (lo hi : Q) :
  (forall v, member k o = Some v -> ToBoolean v = true -> value_between lo hi v) ->
  value_between lo hi d -> value_between lo hi (truthy_or k o d).
Proof.
  intros Hv Hd. unfold truthy_or.
  destruct (member k o) as [v|]; [|exact Hd].
  destruct (ToBoolean v) eqn:Ht; [now apply Hv | exact Hd].
Qed.

(** X6. The load effect keeps the numeric settings within their
    intervals when the truthy values the stored object holds for them
    lie within those intervals. *)
Theorem load_preferences_keeps_bounds
  (host : Host) (w : World) (o : list (string * value)) :
  JSON_parse host (or_empty_object (localStorage w "dyslexia_ui_settings"))
    = Ok (Obj o) ->
  numbers_in_range o ->
  in_bounds (state w) ->
  in_bounds (state (snd (load_preferences host w))).
Proof.
  intros Hp (Ho1 & Ho2 & Ho3) (H1 & H2 & H3 & H4).
  rewrite load_preferences_spec, Hp.
  unfold in_bounds.
  cbn [snd state with_state overlay_truthy fontSize lineHeight
       letterSpacing rate].
  repeat split; try (now apply truthy_or_between); apply H4.
Qed.

Lemma load_preferences_keeps_bounds_witness :
  in_bounds (state (snd (load_preferences failing_browser
                           (mounted None (Some blob_lineHeight_2))))).
Proof.
  apply (load_preferences_keeps_bounds failing_browser
           (mounted None (Some blob_lineHeight_2))
           [("lineHeight", Num (Finite (2 # 1)))]).
  - reflexivity.
  - unfold numbers_in_range. repeat split;
      intros v Hm; cbn in Hm; try discriminate Hm;
      injection Hm as <-; intros _;
      cbn; unfold between, Qle; cbn; lia.
  - exact in_bounds_initial_state.
Defined.

(* ################################################################## *)
(** * Beyond the claims: the importer *)
(* ################################################################## *)

Lemma pages_text_first_failure (pdf : PDFDocumentProxy) (before after : list nat)
  (k : nat) (e : error) :
  (forall j, In j before -> exists f, fragments pdf j = Ok f) ->
  fragments pdf k = Throw e ->
  pages_text pdf (before ++ k :: after) = Throw e /\
  visited pdf (before ++ k :: after) = before ++ [k].
Proof.
  intros Hb Hk. induction before as [|j r IH]; cbn [app pages_text visited].
  - rewrite Hk. split; reflexivity.
  - destruct (Hb j (or_introl eq_refl)) as [f Hf]. rewrite Hf.
    destruct IH as [IHt IHv]; [intros i Hi; apply Hb; now right|].
    rewrite IHt, IHv. split; reflexivity.
Qed.

(** X7. When page [k] is the first that cannot be delivered, [readPDF]
    has asked for the pages 1 to [k] and for no later one, it fails with
    the error of page [k], and the text is as it was: nothing of the
    pages already read is written. *)
Theorem readPDF_stops_at_first_failure
  (host : Host) (file : File.t) (buffer : ArrayBuffer)
  (pdf : PDFDocumentProxy) (k : nat) (e : error) (w : World) :
  File.arrayBuffer file = Ok buffer ->
  pdfjsLib_getDocument host buffer = Ok pdf ->
  1 <= k <= numPages pdf ->
  (forall j, 1 <= j < k -> exists f, fragments pdf j = Ok f) ->
  fragments pdf k = Throw e ->
  readPDF host file w = (Throw e, with_events (map PdfGetPage (seq 1 k)) w) /\
  state (snd (readPDF host file w)) = state w.
Proof.
  intros Hb Hd Hk Hbefore Hfail.
  assert (Hseq : seq 1 (numPages pdf)
                 = seq 1 (k - 1) ++ k :: seq (S k) (numPages pdf - k)).
  { replace (numPages pdf) with ((k - 1) + S (numPages pdf - k)) at 1 by lia.
    rewrite seq_app. cbn [seq].
    replace (1 + (k - 1)) with k by lia. reflexivity. }
  destruct (pages_text_first_failure pdf (seq 1 (k - 1))
              (seq (S k) (numPages pdf - k)) k e) as [Ht Hv].
  - intros j Hj. apply in_seq in Hj. apply Hbefore. lia.
  - exact Hfail.
  - rewrite readPDF_spec. unfold extraction, page_requests.
    rewrite Hb, Hd, Hseq, Ht, Hv.
    replace (seq 1 (k - 1) ++ [k]) with (seq 1 k).
    + split; [reflexivity|]. cbn [snd]. apply state_with_events.
    + replace k with ((k - 1) + 1) at 1 by lia.
      rewrite seq_app. cbn [seq]. now replace (1 + (k - 1)) with k by lia.
Qed.

Lemma readPDF_stops_at_first_failure_witness :
  readPDF (browser (Ok pdf_with_bad_page) (Ok "") (Ok ""))
    (file_named "three.pdf") (mounted None None)
  = (Throw (Failure "Invalid page request"),
     with_events [PdfGetPage 1; PdfGetPage 2] (mounted None None)).
Proof.
  apply (readPDF_stops_at_first_failure
           (browser (Ok pdf_with_bad_page) (Ok "") (Ok ""))
           (file_named "three.pdf") [] pdf_with_bad_page 2
           (Failure "Invalid page request") (mounted None None)).
  - reflexivity.
  - reflexivity.
  - cbn. lia.
  - intros j Hj. assert (j = 1) as -> by lia. now exists ["One"].
  - reflexivity.
Defined.

(** X8. A document without pages: no page is asked for and the text
    becomes empty. *)
Theorem readPDF_without_pages
  (host : Host) (file : File.t) (buffer : ArrayBuffer)
  (pdf : PDFDocumentProxy) (w : World) :
  File.arrayBuffer file = Ok buffer ->
  pdfjsLib_getDocument host buffer = Ok pdf ->
  numPages pdf = 0 ->
  readPDF host file w = (Ok tt, with_state (replace_text "") w).
Proof.
  intros Hb Hd Hn. rewrite readPDF_spec.
  unfold extraction, page_requests. rewrite Hb, Hd, Hn. reflexivity.
Qed.

Lemma readPDF_without_pages_witness :
  text (state (snd (readPDF (browser (Ok pdf_without_pages) (Ok "") (Ok ""))
                      (file_named "empty.pdf") (mounted None None)))) = "".
Proof.
  rewrite (readPDF_without_pages
             (browser (Ok pdf_without_pages) (Ok "") (Ok ""))
             (file_named "empty.pdf") [] pdf_without_pages (mounted None None));
    reflexivity.
Defined.

Lemma localStorage_with_events (es : list event) (w : World) :
  localStorage (with_events es w) = localStorage w.
Proof.
  revert w. induction es as [|e r IH]; intros w; simpl; [reflexivity | now rewrite IH].
Qed.

(** X9. Whatever is uploaded and however the extraction ends, the
    handler leaves the six settings, the rate, the reading flag, the
    speech queue and the store as they were: of the state it can only
    replace the text. *)
Theorem handleFileUpload_frame
  (host : Host) (files : option (list File.t)) (w : World) :
  same_settings (state w) (state (snd (handleFileUpload host files w))) /\
  rate (state (snd (handleFileUpload host files w))) = rate (state w) /\
  isReading (state (snd (handleFileUpload host files w))) = isReading (state w) /\
  speechSynthesis (snd (handleFileUpload host files w)) = speechSynthesis w /\
  localStorage (snd (handleFileUpload host files w)) = localStorage w.
Proof.
  unfold same_settings.
  destruct files as [[|file rest]|]; try (repeat split; reflexivity).
  rewrite handleFileUpload_spec. cbv zeta.
  destruct (detectedKind (File.name file));
    try match goal with
        | |- context [extraction host file ?k] =>
            destruct (extraction host file k)
        end;
    cbn [snd state speechSynthesis localStorage with_fileInput_value
         with_state with_event replace_text font fontSize lineHeight
         letterSpacing bgColor textColor rate isReading];
    rewrite ?state_with_events, ?speechSynthesis_with_events,
      ?localStorage_with_events;
    repeat split.
Qed.

(* ################################################################## *)
(** * Beyond the claims: read aloud *)
(* ################################################################## *)

(** Outside play, stop and the end of an utterance, an action leaves
    the speech queue and the reading flag alone. *)
Lemma handle_keeps_queue (host : Host) (a : action) (w : World) :
  a <> Play -> a <> Stop -> a <> UtteranceEnds ->
  speechSynthesis (snd (handle host a w)) = speechSynthesis w /\
  isReading (state (snd (handle host a w))) = isReading (state w).
Proof.
  intros Hp Hs He.
  destruct a as [ | | | | | | | | | [[|f r]|] | | | | ];
    try contradiction; cbn [handle]; try (split; reflexivity);
    by_equation; split; reflexivity.
Qed.

(** X10. Every action other than play, stop and the end of an utterance
    leaves the speech queue and the reading flag as they were: an
    utterance keeps the text and the rate it was started with, whatever
    is edited, uploaded or loaded while it is spoken. *)
Theorem queue_changed_by_three_actions_only
  (host : Host) (a : action) (w : World) :
  a <> Play -> a <> Stop -> a <> UtteranceEnds ->
  speechSynthesis (snd (handle host a w)) = speechSynthesis w /\
  isReading (state (snd (handle host a w))) = isReading (state w).
Proof. apply handle_keeps_queue. Qed.

Lemma queue_changed_by_three_actions_only_witness :
  speechSynthesis
    (snd (handle failing_browser (Edit "another text")
            (snd (playTTS (mounted (Some []) None)))))
  = Some [ {| utterance_text := "Type or paste text here...";
              utterance_rate := Finite (1 # 1) |} ].
Proof.
  refine (eq_trans
    (proj1 (queue_changed_by_three_actions_only failing_browser
              (Edit "another text")
              (snd (playTTS (mounted (Some []) None))) _ _ _)) _);
    try discriminate; reflexivity.
Defined.

(** X12. After [playTTS], [stopTTS] and the end of the utterance both
    bring the controller back to idle with an empty queue, and the
    state is the one before [playTTS] with the reading flag off: playing
    changes neither the text nor a setting. *)
Theorem play_then_stop_or_end (w : World) (q : list SpeechSynthesisUtterance) :
  speechSynthesis w = Some q ->
  (state (snd (stopTTS (snd (playTTS w)))) = reading false (state w) /\
   speechSynthesis (snd (stopTTS (snd (playTTS w)))) = Some []) /\
  (state (snd (utterance_ends (snd (playTTS w)))) = reading false (state w) /\
   speechSynthesis (snd (utterance_ends (snd (playTTS w)))) = Some []).
Proof.
  intros Hq.
  rewrite stopTTS_spec, utterance_ends_spec, playTTS_spec, Hq.
  cbn. repeat split.
Qed.

Lemma play_then_stop_or_end_witness :
  state (snd (utterance_ends (snd (playTTS (mounted (Some []) None)))))
  = initial_state.
Proof.
  apply (play_then_stop_or_end (mounted (Some []) None) []).
  reflexivity.
Defined.

(* ################################################################## *)
(** * Beyond the claims: a whole session *)
(* ################################################################## *)

Lemma run_keeps_bounds (host : Host) (actions : list action) (w : World) :
  Forall (fun a => a <> LoadPreferences /\ delivered a) actions ->
  in_bounds (state w) -> in_bounds (state (run host actions w)).
Proof.
  intros Hall. revert w.
  induction Hall as [|a r [Ha Hd] _ IH]; intros w Hw; cbn [run].
  - exact Hw.
  - apply IH. now apply handle_keeps_bounds.
Qed.

(** X13. From mount on, the effects first and then any use of the
    controls, the editor, the upload and the read-aloud buttons, the
    numeric settings are within their intervals, whatever the store held
    when the page was mounted. *)
Theorem session_keeps_bounds
  (host : Host) (JSON_stringify : value -> string) (w : World)
  (actions : list action) :
  state w = initial_state ->
  JSON_parse host (JSON_stringify (settings_object initial_state))
    = Ok (settings_object initial_state) ->
  JSON_stringify (settings_object initial_state) <> "" ->
  Forall (fun a => a <> LoadPreferences /\ delivered a) actions ->
  in_bounds
    (state (run host actions (snd (mount_effects host JSON_stringify w)))).
Proof.
  intros Hinit Hparse Hne Hall.
  apply run_keeps_bounds; [exact Hall|].
  unfold mount_effects, bind. rewrite save_preferences_spec.
  rewrite load_preferences_spec.
  cbn [fst snd localStorage with_localStorage state].
  rewrite Hinit.
  rewrite ?String.eqb_refl, or_empty_object_nonempty by exact Hne.
  rewrite Hparse. unfold settings_object.
  cbn [snd state with_state with_localStorage]. rewrite ?Hinit.
  rewrite (overlay_truthy_own_settings initial_state).
  exact in_bounds_initial_state.
Qed.

Lemma session_keeps_bounds_witness :
  in_bounds
    (state (run failing_browser
              [FontSizeSlider (48 # 1); Upload (Some [file_named "a.txt"]);
               Play; LetterSpacingSlider (0 # 1)]
              (snd (mount_effects failing_browser Stringify.stringify
                      (mounted (Some []) (Some blob_fontSize_99)))))).
Proof.
  apply (session_keeps_bounds failing_browser Stringify.stringify
           (mounted (Some []) (Some blob_fontSize_99))).
  - reflexivity.
  - reflexivity.
  - discriminate.
  - repeat constructor; try discriminate;
      unfold Qle; cbn; lia.
Defined.

(* ################################################################## *)
(** * The settings of the mounted page *)
(* ################################################################## *)

(** The two effects at mount, in one equation: the store receives the
    settings of the state the page is mounted with, and that state is
    left as it is. *)
Lemma mount_effects_spec
  (host : Host) (JSON_stringify : value -> string) (w : World) :
  JSON_parse host (JSON_stringify (settings_object (state w)))
    = Ok (settings_object (state w)) ->
  JSON_stringify (settings_object (state w)) <> "" ->
  mount_effects host JSON_stringify w =
  (Ok tt,
   with_localStorage
     (fun k => if k =? "dyslexia_ui_settings"
               then Some (JSON_stringify (settings_object (state w)))
               else localStorage w k) w).
Proof.
  intros Hparse Hne.
  unfold mount_effects, bind. rewrite save_preferences_spec.
  rewrite load_preferences_spec.
  cbn [fst snd localStorage with_localStorage state].
  rewrite ?String.eqb_refl, or_empty_object_nonempty by exact Hne.
  rewrite Hparse. unfold settings_object, with_state, with_localStorage.
  cbn [state speechSynthesis localStorage fileInput_value trace].
  now rewrite overlay_truthy_own_settings.
Qed.

(** C4. On the mounted page every numeric setting stays within its
    interval: font size in [14, 48], line height in [1, 2.4], letter
    spacing in [0, 4], speech rate in [0.5, 2], through the effects at
    mount and any use of the controls, the range inputs delivering
    values between their bounds.  A value that arrives in the persisted
    blob is rejected, whatever it is: the save effect replaces the blob
    by the settings the page is mounted with before the load effect
    reads it, so the state after mount is the initial one and the blob
    is never stored. *)
Theorem numeric_settings_within_bounds
  (host : Host) (JSON_stringify : value -> string) (w : World)
  (actions : list action) :
  state w = initial_state ->
  JSON_parse host (JSON_stringify (settings_object initial_state))
    = Ok (settings_object initial_state) ->
  JSON_stringify (settings_object initial_state) <> "" ->
  Forall (fun a => a <> LoadPreferences /\ delivered a) actions ->
  state (snd (mount_effects host JSON_stringify w)) = initial_state /\
  localStorage (snd (mount_effects host JSON_stringify w))
    "dyslexia_ui_settings"
    = Some (JSON_stringify (settings_object initial_state)) /\
  in_bounds
    (state (run host actions (snd (mount_effects host JSON_stringify w)))).
Proof.
  intros Hinit Hparse Hne Hall.
  rewrite mount_effects_spec by (rewrite Hinit; assumption).
  cbn [snd state localStorage with_localStorage].
  rewrite ?String.eqb_refl, Hinit.
  split; [reflexivity|]. split; [reflexivity|].
  apply run_keeps_bounds; [exact Hall|].
  cbn [state with_localStorage]. rewrite Hinit.
  exact in_bounds_initial_state.
Qed.

Lemma numeric_settings_within_bounds_witness :
  fontSize (state (snd (mount_effects failing_browser Stringify.stringify
                          (mounted (Some []) (Some blob_fontSize_99)))))
    = Num (Finite (20 # 1)) /\
  in_bounds
    (state (run failing_browser
              [LineHeightSlider (24 # 10); RateSlider (5 # 10); Stop;
               FontSizeSlider (14 # 1)]
              (snd (mount_effects failing_browser Stringify.stringify
                      (mounted (Some []) (Some blob_fontSize_99)))))).
Proof.
  destruct (numeric_settings_within_bounds failing_browser Stringify.stringify
              (mounted (Some []) (Some blob_fontSize_99))
              [LineHeightSlider (24 # 10); RateSlider (5 # 10); Stop;
               FontSizeSlider (14 # 1)])
    as (Hstate & _ & Hbounds).
  - reflexivity.
  - reflexivity.
  - discriminate.
  - repeat constructor; try discriminate; unfold Qle; cbn; lia.
  - split; [now rewrite Hstate | exact Hbounds].
Defined.

(** C5 at the failing input: the page is mounted over the stored blob
    [{"lineHeight":2}], which parses to an object with that one key.
    The effects do not throw, but the line height stays at its default
    1.6 instead of taking the stored 2: the save effect has replaced the
    blob by the defaults before the load effect reads the store. *)
Theorem mount_over_stored_lineHeight_keeps_default :
  localStorage (mounted None (Some blob_lineHeight_2)) "dyslexia_ui_settings"
    = Some blob_lineHeight_2 /\
  JSON.parse blob_lineHeight_2
    = Ok (Obj [("lineHeight", Num (Finite (2 # 1)))]) /\
  fst (mount_effects failing_browser Stringify.stringify
         (mounted None (Some blob_lineHeight_2))) = Ok tt /\
  lineHeight (state (snd (mount_effects failing_browser Stringify.stringify
                            (mounted None (Some blob_lineHeight_2)))))
    = Num (Finite (16 # 10)) /\
  localStorage (snd (mount_effects failing_browser Stringify.stringify
                       (mounted None (Some blob_lineHeight_2))))
    "dyslexia_ui_settings"
    = Some (Stringify.stringify (settings_object initial_state)).
Proof.
  repeat split.
Qed.
